(** * The world store service: [server.py] and [backend/server.py]

    Both files are a Flask application with two handlers on [/api/world]:
    [get_world] (GET) reads the world document from a fixed path and returns
    it, [save_world] (POST) copies the current document to a [.bak] sibling
    and replaces it by the request's document.

    The handlers are embedded as functions in a state-and-exception monad
    over a small file system that also records, in order, what each call
    opens, writes and prints.  What they call from Python's standard library
    and from Flask ([json.load], [json.dump], [open], [os.path.exists],
    [request.get_json], [jsonify], [len], [dict.get], ...) is modelled
    first, then the two files, each in a module of its own. *)

From Stdlib Require Import ZArith Ascii String List Lia.
From Stdlib Require Import DecimalString DecimalZ DecimalPos DecimalN DecimalFacts.
From stdpp Require Import base option list gmap strings.

(* ===================================================================== *)
(** * JSON documents *)
(* ===================================================================== *)

(** The Python values [json.load] produces: [None], [bool], [int], [str],
    [list] and [dict] with [str] keys.  A [dict] keeps its keys in insertion
    order, so it is an association list; the decoder never produces two
    entries with one key.

    Scope of the model: numbers are Python [int]s (unbounded).  A number
    literal with a fraction or an exponent, and the constants [NaN] and
    [Infinity], denote binary floating point values and are outside the
    model: the decoder below does not accept them.  The characters of a
    [str] are the code points below 256. *)

Unset Elimination Schemes.
Inductive json : Type :=
| JNull
| JBool (b : bool)
| JInt (n : Z)
| JStr (s : string)
| JList (l : list json)
| JDict (d : list (string * json)).
Set Elimination Schemes.

Module Chars.
Definition dquote : ascii := "034"%char.
Definition backslash : ascii := "092"%char.
Definition newline : ascii := "010"%char.
Definition creturn : ascii := "013"%char.
Definition tab : ascii := "009"%char.
Definition backspace : ascii := "008"%char.
Definition formfeed : ascii := "012"%char.
End Chars.
Import Chars.

(* --------------------------------------------------------------------- *)
(** ** [json.dump(obj, f, indent=4)]: the encoder *)
(* --------------------------------------------------------------------- *)

(** [int.__repr__]: decimal digits, with a leading [-] for a negative. *)
Definition int_repr (n : Z) : string := NilZero.string_of_int (Z.to_int n).

Definition hexdigit (n : nat) : ascii :=
  match n with
  | 0 => "0" | 1 => "1" | 2 => "2" | 3 => "3" | 4 => "4" | 5 => "5"
  | 6 => "6" | 7 => "7" | 8 => "8" | 9 => "9" | 10 => "a" | 11 => "b"
  | 12 => "c" | 13 => "d" | 14 => "e" | _ => "f"
  end%char.

(** The characters [ESCAPE_ASCII] leaves alone: space to [~], except the
    double quote and the backslash. *)
Definition printable (c : ascii) : bool :=
  let n := nat_of_ascii c in (32 <=? n) && (n <=? 126).

(** The replacement of one character by [encode_basestring_ascii]
    ([ensure_ascii] is on by default): the short escapes, the character
    itself when printable, [\u00xx] otherwise. *)
Definition escape_char (c : ascii) : string :=
  if Ascii.eqb c dquote then String backslash (String dquote "")
  else if Ascii.eqb c backslash then String backslash (String backslash "")
  else if Ascii.eqb c newline then String backslash "n"
  else if Ascii.eqb c creturn then String backslash "r"
  else if Ascii.eqb c tab then String backslash "t"
  else if Ascii.eqb c backspace then String backslash "b"
  else if Ascii.eqb c formfeed then String backslash "f"
  else if printable c then String c ""
  else String backslash
         (String "u"%char (String "0"%char (String "0"%char
            (String (hexdigit (nat_of_ascii c / 16))
               (String (hexdigit (nat_of_ascii c mod 16)) ""))))).

Fixpoint escape (s : string) : string :=
  match s with
  | EmptyString => ""
  | String c s' => escape_char c +:+ escape s'
  end.

Definition encode_basestring_ascii (s : string) : string :=
  String dquote (escape s +:+ String dquote "").

Fixpoint indentation (level : nat) : string :=
  match level with
  | 0 => ""
  | S l => "    " +:+ indentation l
  end.

(** ['\n' + _indent * _current_indent_level] *)
Definition newline_indent (level : nat) : string :=
  String newline (indentation level).

(** [buf + item, separator + item, ...] with [separator = ',' + newline_indent] *)
Fixpoint join_items (sep : string) (items : list string) : string :=
  match items with
  | [] => ""
  | [x] => x
  | x :: rest => x +:+ sep +:+ join_items sep rest
  end.

(** [_iterencode(o, _current_indent_level)] of [json.encoder], for
    [indent=4]: the item separator is [','] followed by the new line and
    indentation, the key separator is [': ']; an empty list is [[]] and an
    empty dict is [{}]. *)
Fixpoint iterencode (level : nat) (o : json) {struct o} : string :=
  match o with
  | JNull => "null"
  | JBool true => "true"
  | JBool false => "false"
  | JInt n => int_repr n
  | JStr s => encode_basestring_ascii s
  | JList [] => "[]"
  | JList l =>
      "[" +:+ newline_indent (S level)
        +:+ join_items ("," +:+ newline_indent (S level))
              (map (iterencode (S level)) l)
        +:+ newline_indent level +:+ "]"
  | JDict [] => "{}"
  | JDict d =>
      "{" +:+ newline_indent (S level)
        +:+ join_items ("," +:+ newline_indent (S level))
              (map (fun kv => encode_basestring_ascii (fst kv) +:+ ": "
                                +:+ iterencode (S level) (snd kv)) d)
        +:+ newline_indent level +:+ "}"
  end.

(** The text [json.dump(obj, f, indent=4)] writes to [f]. *)
Definition json_dumps (o : json) : string := iterencode 0 o.

(* --------------------------------------------------------------------- *)
(** ** [json.load(f)]: the decoder *)
(* --------------------------------------------------------------------- *)

(** [WHITESPACE = ' \t\n\r'] *)
Definition is_ws (c : ascii) : bool :=
  Ascii.eqb c " "%char || Ascii.eqb c tab || Ascii.eqb c newline || Ascii.eqb c creturn.

Fixpoint skip_ws (s : string) : string :=
  match s with
  | String c s' => if is_ws c then skip_ws s' else s
  | EmptyString => ""
  end.

(** The value of a hexadecimal digit, in either case, as [int(esc, 16)]
    reads it. *)
Definition hexval (c : ascii) : option nat :=
  let n := nat_of_ascii c in
  if (nat_of_ascii "0" <=? n) && (n <=? nat_of_ascii "9") then Some (n - nat_of_ascii "0")
  else if (nat_of_ascii "a" <=? n) && (n <=? nat_of_ascii "f") then Some (10 + (n - nat_of_ascii "a"))
  else if (nat_of_ascii "A" <=? n) && (n <=? nat_of_ascii "F") then Some (10 + (n - nat_of_ascii "A"))
  else None.

(** [_decode_uXXXX]: the code point of four hexadecimal digits. *)
Definition decode_uXXXX (a b c d : ascii) : option nat :=
  match hexval a, hexval b, hexval c, hexval d with
  | Some x, Some y, Some z, Some w => Some (((x * 16 + y) * 16 + z) * 16 + w)
  | _, _, _, _ => None
  end.

Definition unescape (e : ascii) : option ascii :=
  if Ascii.eqb e dquote then Some dquote
  else if Ascii.eqb e backslash then Some backslash
  else match e with
       | "/" => Some "/"
       | "b" => Some backspace
       | "f" => Some formfeed
       | "n" => Some newline
       | "r" => Some creturn
       | "t" => Some tab
       | _ => None
       end%char.

Definition cons_char (c : ascii) (r : option (string * string)) : option (string * string) :=
  match r with
  | Some (s, rest) => Some (String c s, rest)
  | None => None
  end.

(** [py_scanstring(s, end, strict=True)], started after the opening quote:
    the decoded string and what follows the closing quote.  A control
    character below 0x20 is refused, so is an unknown escape and an
    unterminated string.  An escape [\uXXXX] of a code point from 256 on is
    outside the model. *)
Fixpoint scanstring (s : string) : option (string * string) :=
  match s with
  | EmptyString => None
  | String c s1 =>
      if Ascii.eqb c dquote then Some ("", s1)
      else if Ascii.eqb c backslash then
        match s1 with
        | EmptyString => None
        | String e s2 =>
            if Ascii.eqb e "u"%char then
              match s2 with
              | String h1 (String h2 (String h3 (String h4 s3))) =>
                  match decode_uXXXX h1 h2 h3 h4 with
                  | Some cp =>
                      if cp <? 256 then cons_char (ascii_of_nat cp) (scanstring s3)
                      else None
                  | None => None
                  end
              | _ => None
              end
            else
              match unescape e with
              | Some c' => cons_char c' (scanstring s2)
              | None => None
              end
        end
      else if nat_of_ascii c <? 32 then None
      else cons_char c (scanstring s1)
  end.

Definition digit_of (c : ascii) : option (Decimal.uint -> Decimal.uint) :=
  match c with
  | "0" => Some Decimal.D0 | "1" => Some Decimal.D1 | "2" => Some Decimal.D2
  | "3" => Some Decimal.D3 | "4" => Some Decimal.D4 | "5" => Some Decimal.D5
  | "6" => Some Decimal.D6 | "7" => Some Decimal.D7 | "8" => Some Decimal.D8
  | "9" => Some Decimal.D9
  | _ => None
  end%char.

(** The longest run of decimal digits at the head of [s]. *)
Fixpoint scan_digits (s : string) : Decimal.uint * string :=
  match s with
  | EmptyString => (Decimal.Nil, "")
  | String c s' =>
      match digit_of c with
      | Some k => let (d, r) := scan_digits s' in (k d, r)
      | None => (Decimal.Nil, s)
      end
  end.

(** The integer part of [NUMBER_RE]: a lone [0], or a run of digits that
    starts with a non-zero digit. *)
Definition scan_natural (s : string) : option (Decimal.uint * string) :=
  match s with
  | String "0"%char r => Some (Decimal.D0 Decimal.Nil, r)
  | _ => match scan_digits s with
         | (Decimal.Nil, _) => None
         | (d, r) => Some (d, r)
         end
  end.

(** [match_number]: an optional [-] and the integer part; the value is the
    Python [int] of the matched text. *)
Definition scan_number (s : string) : option (Z * string) :=
  match s with
  | String "-"%char s' =>
      match scan_natural s' with
      | Some (d, r) => Some (Z.of_int (Decimal.Neg d), r)
      | None => None
      end
  | _ =>
      match scan_natural s with
      | Some (d, r) => Some (Z.of_int (Decimal.Pos d), r)
      | None => None
      end
  end.

Fixpoint strip_prefix (p s : string) : option string :=
  match p, s with
  | EmptyString, _ => Some s
  | String a p', String b s' => if Ascii.eqb a b then strip_prefix p' s' else None
  | String _ _, EmptyString => None
  end.

(** [d[k] = v] on a dict: an existing key keeps its place and takes the new
    value, a new key goes to the end. *)
Fixpoint dict_set (k : string) (v : json) (d : list (string * json)) : list (string * json) :=
  match d with
  | [] => [(k, v)]
  | (k', v') :: d' =>
      if String.eqb k k' then (k, v) :: d' else (k', v') :: dict_set k v d'
  end.

(** [dict(pairs)] *)
Definition dict_of_pairs (pairs : list (string * json)) : list (string * json) :=
  fold_left (fun d kv => dict_set (fst kv) (snd kv) d) pairs [].

(** [s[end:end + 1] == c] *)
Definition head_is (c : ascii) (s : string) : bool :=
  match s with
  | String c' _ => Ascii.eqb c' c
  | EmptyString => false
  end.

(** [s[end + 1:]] *)
Definition tail (s : string) : string :=
  match s with
  | String _ r => r
  | EmptyString => ""
  end.

(** [scan_once], [JSONArray] and [JSONObject] of [json.decoder] and
    [json.scanner].  [scan_once fuel s] decodes the value at the head of
    [s] (no white space is skipped before it) and returns it with the rest
    of the text; [None] stands for [JSONDecodeError].  [array_loop] is the
    [while True] loop of [JSONArray], entered at the first character of an
    item; [object_loop] is the loop of [JSONObject], entered at the opening
    quote of a key.  The three recurse on [fuel], which [json_loads] sets
    high enough for the length of the text. *)
Fixpoint scan_once (fuel : nat) (s : string) {struct fuel} : option (json * string) :=
  match fuel with
  | 0 => None
  | S fuel' =>
      match s with
      | EmptyString => None
      | String c s' =>
          if Ascii.eqb c dquote then
            match scanstring s' with
            | Some (str, r) => Some (JStr str, r)
            | None => None
            end
          else if Ascii.eqb c "{"%char then
            let s1 := skip_ws s' in
            if head_is "}" s1 then Some (JDict [], tail s1)
            else
              match object_loop fuel' s1 with
              | Some (pairs, r) => Some (JDict (dict_of_pairs pairs), r)
              | None => None
              end
          else if Ascii.eqb c "["%char then
            let s1 := skip_ws s' in
            if head_is "]" s1 then Some (JList [], tail s1)
            else
              match array_loop fuel' s1 with
              | Some (values, r) => Some (JList values, r)
              | None => None
              end
          else if Ascii.eqb c "n"%char then
            match strip_prefix "null" s with
            | Some r => Some (JNull, r)
            | None => None
            end
          else if Ascii.eqb c "t"%char then
            match strip_prefix "true" s with
            | Some r => Some (JBool true, r)
            | None => None
            end
          else if Ascii.eqb c "f"%char then
            match strip_prefix "false" s with
            | Some r => Some (JBool false, r)
            | None => None
            end
          else
            match scan_number s with
            | Some (n, r) => Some (JInt n, r)
            | None => None
            end
      end
  end
with array_loop (fuel : nat) (s : string) {struct fuel} : option (list json * string) :=
  match fuel with
  | 0 => None
  | S fuel' =>
      match scan_once fuel' s with
      | None => None
      | Some (v, r) =>
          let r1 := skip_ws r in
          if head_is "]" r1 then Some ([v], tail r1)
          else if head_is "," r1 then
            match array_loop fuel' (skip_ws (tail r1)) with
            | Some (vs, r') => Some (v :: vs, r')
            | None => None
            end
          else None
      end
  end
with object_loop (fuel : nat) (s : string) {struct fuel} : option (list (string * json) * string) :=
  match fuel with
  | 0 => None
  | S fuel' =>
      if head_is dquote s then
        match scanstring (tail s) with
        | None => None
        | Some (key, r) =>
            let r1 := skip_ws r in
            if head_is ":" r1 then
              match scan_once fuel' (skip_ws (tail r1)) with
              | None => None
              | Some (v, r2) =>
                  let r3 := skip_ws r2 in
                  if head_is "}" r3 then Some ([(key, v)], tail r3)
                  else if head_is "," r3 then
                    match object_loop fuel' (skip_ws (tail r3)) with
                    | Some (pairs, r4) => Some ((key, v) :: pairs, r4)
                    | None => None
                    end
                  else None
              end
            else None
        end
      else None
  end.

(** [JSONDecoder.decode]: white space, one value, white space, end of text.
    Anything else is a [JSONDecodeError], here [None]. *)
Definition json_loads (s : string) : option json :=
  match scan_once (S (String.length s)) (skip_ws s) with
  | Some (v, r) =>
      match skip_ws r with
      | EmptyString => Some v
      | String _ _ => None
      end
  | None => None
  end.

(* ===================================================================== *)
(** * Python exceptions and the operations on values *)
(* ===================================================================== *)

(** The exceptions the handlers can meet.  All are subclasses of
    [Exception], so the handlers' [except Exception as e] catches every one
    of them (Werkzeug's [BadRequest] included). *)
Inductive exn : Type :=
| FileNotFoundError (path : string)
| PermissionError (path : string)
| IsADirectoryError (path : string)
| JSONDecodeError
| BadRequest
| AttributeError (type attr : string)
| TypeError (msg : string)
| KeyError (key : string).

Definition quoted (s : string) : string := "'" +:+ s +:+ "'".

(** [str(e)].  For [JSONDecodeError] Python's message names what the
    decoder expected and at which line and column; the model keeps the
    class of the error only.  For [BadRequest] it is Werkzeug's default
    description. *)
Definition str (e : exn) : string :=
  match e with
  | FileNotFoundError p => "[Errno 2] No such file or directory: " +:+ quoted p
  | PermissionError p => "[Errno 13] Permission denied: " +:+ quoted p
  | IsADirectoryError p => "[Errno 21] Is a directory: " +:+ quoted p
  | JSONDecodeError => "JSONDecodeError"
  | BadRequest =>
      "400 Bad Request: The browser (or proxy) sent a request that this server could not understand."
  | AttributeError t a => quoted t +:+ " object has no attribute " +:+ quoted a
  | TypeError msg => msg
  | KeyError k => quoted k
  end.

Inductive result (A : Type) : Type :=
| Ok (a : A)
| Raise (e : exn).
Arguments Ok {A} a.
Arguments Raise {A} e.

Definition rbind {A B : Type} (r : result A) (k : A -> result B) : result B :=
  match r with
  | Ok a => k a
  | Raise e => Raise e
  end.

(** [[f(x) for x in l]], and the generator [sum] consumes: the first
    exception ends the loop. *)
Fixpoint rmap {A B : Type} (f : A -> result B) (l : list A) : result (list B) :=
  match l with
  | [] => Ok []
  | x :: l' => rbind (f x) (fun y => rbind (rmap f l') (fun ys => Ok (y :: ys)))
  end.

(** [type(o).__name__] *)
Definition type_name (o : json) : string :=
  match o with
  | JNull => "NoneType"
  | JBool _ => "bool"
  | JInt _ => "int"
  | JStr _ => "str"
  | JList _ => "list"
  | JDict _ => "dict"
  end.

Fixpoint dict_lookup (k : string) (d : list (string * json)) : option json :=
  match d with
  | [] => None
  | (k', v) :: d' => if String.eqb k k' then Some v else dict_lookup k d'
  end.

(** [o.get(k, default)]: only a [dict] has the method. *)
Definition py_get (o : json) (k : string) (default : json) : result json :=
  match o with
  | JDict d => Ok (match dict_lookup k d with Some v => v | None => default end)
  | _ => Raise (AttributeError (type_name o) "get")
  end.

(** [len(o)] *)
Definition py_len (o : json) : result nat :=
  match o with
  | JStr s => Ok (String.length s)
  | JList l => Ok (length l)
  | JDict d => Ok (length d)
  | _ => Raise (TypeError ("object of type " +:+ quoted (type_name o) +:+ " has no len()"))
  end.

(** The truth value of [o] in [if o:] *)
Definition py_truthy (o : json) : bool :=
  match o with
  | JNull => false
  | JBool b => b
  | JInt n => negb (Z.eqb n 0)
  | JStr s => negb (String.eqb s "")
  | JList l => match l with [] => false | _ => true end
  | JDict d => match d with [] => false | _ => true end
  end.

Fixpoint chars (s : string) : list json :=
  match s with
  | EmptyString => []
  | String c s' => JStr (String c "") :: chars s'
  end.

(** The items [for x in o] runs through: the elements of a list, the keys
    of a dict, the characters of a string. *)
Definition py_iter (o : json) : result (list json) :=
  match o with
  | JList l => Ok l
  | JDict d => Ok (map (fun kv => JStr (fst kv)) d)
  | JStr s => Ok (chars s)
  | _ => Raise (TypeError (quoted (type_name o) +:+ " object is not iterable"))
  end.

(** [o[k]] for a string [k] *)
Definition py_getitem (o : json) (k : string) : result json :=
  match o with
  | JDict d => match dict_lookup k d with
               | Some v => Ok v
               | None => Raise (KeyError k)
               end
  | JList _ => Raise (TypeError "list indices must be integers or slices, not str")
  | JStr _ => Raise (TypeError "string indices must be integers, not 'str'")
  | _ => Raise (TypeError (quoted (type_name o) +:+ " object is not subscriptable"))
  end.

(** [sum(...)] of lengths *)
Definition py_sum (l : list nat) : nat := fold_left Nat.add l 0.

(* ===================================================================== *)
(** * The file system, the log and the handler monad *)
(* ===================================================================== *)

Record perms : Type := Perms { readable : bool; writable : bool }.

Inductive node : Type :=
| File (p : perms) (text : string)
| Dir.

Inductive open_mode : Type := R | W.

(** What the backend's [print] calls write to the standard output: one
    constructor per f-string, with the values the f-string interpolates. *)
Inductive log_line : Type :=
| LogReceived (objects spawners : nat)
| LogFirstObjects (ids : list json)
| LogTotalInstances (total : nat)
| LogBackup (objects : nat)
| LogSaved (path : string)
| LogError (msg : string).

(** What a handler does to the outside, in the order it does it: each call
    of [open], each write to a file, each [print]. *)
Inductive event : Type :=
| EOpen (path : string) (mode : open_mode)
| EWrite (path : string) (text : string)
| EPrint (line : log_line).

(** The state a request runs in: the files by path, whether the directory
    of the data files takes new entries, and the events so far (oldest
    first). *)
Record world : Type := World {
  files : gmap string node;
  can_create : bool;
  trace : list event
}.

Definition M (A : Type) : Type := world -> result A * world.

Definition ret {A : Type} (a : A) : M A := fun w => (Ok a, w).
Definition raise {A : Type} (e : exn) : M A := fun w => (Raise e, w).
Definition bind {A B : Type} (m : M A) (k : A -> M B) : M B :=
  fun w => match m w with
           | (Ok a, w') => k a w'
           | (Raise e, w') => (Raise e, w')
           end.
Definition lift {A : Type} (r : result A) : M A := fun w => (r, w).

(** [try: body except Exception as e: handler(e)].  What the body did to
    the files before it raised stays done. *)
Definition try_except {A : Type} (body : M A) (handler : exn -> M A) : M A :=
  fun w => match body w with
           | (Ok a, w') => (Ok a, w')
           | (Raise e, w') => handler e w'
           end.

Notation "'let*' x ':=' m 'in' k" := (bind m (fun x => k))
  (at level 10, x name, m at level 100, k at level 200).
Notation "m '>>' k" := (bind m (fun _ => k))
  (at level 100, k at level 200, right associativity).

Definition emit (e : event) : M unit :=
  fun w => (Ok tt, World (files w) (can_create w) (trace w ++ [e])).

Definition set_file (path : string) (n : node) : M unit :=
  fun w => (Ok tt, World (<[path := n]> (files w)) (can_create w) (trace w)).

Record handle : Type := Handle { h_path : string; h_mode : open_mode }.

Definition default_perms : perms := Perms true true.

(** Whether [open(path, 'r')] succeeds: the path must be a readable file. *)
Definition read_access (fs : gmap string node) (path : string) : result unit :=
  match fs !! path with
  | None => Raise (FileNotFoundError path)
  | Some Dir => Raise (IsADirectoryError path)
  | Some (File p _) => if readable p then Ok tt else Raise (PermissionError path)
  end.

(** Whether [open(path, 'w')] succeeds, and the permissions of the file it
    opens: those of the writable file at [path], or those of a new file
    when there is none and the directory takes new entries. *)
Definition write_access (fs : gmap string node) (creatable : bool) (path : string) : result perms :=
  match fs !! path with
  | None => if creatable then Ok default_perms else Raise (PermissionError path)
  | Some Dir => Raise (IsADirectoryError path)
  | Some (File p _) => if writable p then Ok p else Raise (PermissionError path)
  end.

(** [open(path, mode)].  Opening for writing truncates the file, or
    creates it empty. *)
Definition open_ (path : string) (mode : open_mode) : M handle :=
  emit (EOpen path mode) >>
  fun w =>
    match mode with
    | R =>
        match read_access (files w) path with
        | Ok _ => (Ok (Handle path R), w)
        | Raise e => (Raise e, w)
        end
    | W =>
        match write_access (files w) (can_create w) path with
        | Ok p => (set_file path (File p "") >> ret (Handle path W)) w
        | Raise e => (Raise e, w)
        end
    end.

(** [os.path.exists(path)] *)
Definition path_exists (path : string) : M bool :=
  fun w => (Ok (match files w !! path with Some _ => true | None => false end), w).

(** The text of the file at [path] *)
Definition text_of (fs : gmap string node) (path : string) : string :=
  match fs !! path with
  | Some (File _ text) => text
  | _ => ""
  end.

(** [json.load(f)]: decodes the whole text of the file. *)
Definition json_load (f : handle) : M json :=
  fun w => match json_loads (text_of (files w) (h_path f)) with
           | Some v => (Ok v, w)
           | None => (Raise JSONDecodeError, w)
           end.

(** [f.write(text)] *)
Definition write (f : handle) (text : string) : M unit :=
  emit (EWrite (h_path f) text) >>
  fun w =>
    match files w !! h_path f with
    | Some (File p old) => set_file (h_path f) (File p (old +:+ text)) w
    | _ => (Ok tt, w)
    end.

(** [json.dump(obj, f, indent=4)] *)
Definition json_dump (obj : json) (f : handle) : M unit :=
  write f (json_dumps obj).

Definition print (l : log_line) : M unit := emit (EPrint l).

(* ===================================================================== *)
(** * Flask: the request and the response *)
(* ===================================================================== *)

(** A POST request, as far as the handlers look at it: its body, when it
    has one. *)
Record request : Type := Request { data : option string }.

(** [request.get_json()].  A body that does not decode raises Werkzeug's
    [BadRequest], which the handlers' [except Exception] catches.  A
    request without a body gives [None], Python's value for JSON [null]:
    this is what Flask did before version 2.1 for a request that does not
    announce JSON, and the behaviour the service's specification records;
    no file of the repository pins the version. *)
Definition get_json (r : request) : result json :=
  match data r with
  | None => Ok JNull
  | Some text =>
      match json_loads text with
      | Some v => Ok v
      | None => Raise BadRequest
      end
  end.

(** What a handler returns: [jsonify(body)] is status 200, and
    [jsonify(body), 500] is status 500.  The body is kept as the document
    it serialises. *)
Record response : Type := Response { body : json; status : nat }.

Definition jsonify (o : json) : json := o.

(* ===================================================================== *)
(** * [server.py] *)
(* ===================================================================== *)

Module Root.

Definition WORLD_DATA_PATH : string := "public/data/world.json".

Definition get_world : M response :=
  try_except
    (let* f := open_ WORLD_DATA_PATH R in
     let* doc := json_load f in
     ret (Response (jsonify doc) 200))
    (fun e => ret (Response (jsonify (JDict [("error", JStr (str e))])) 500)).

Definition save_world (request : request) : M response :=
  try_except
    (let* data := lift (get_json request) in
     (* Create backup of current world data *)
     let* ex := path_exists WORLD_DATA_PATH in
     (if ex then
        let* f := open_ (WORLD_DATA_PATH +:+ ".bak") W in
        let* orig := open_ WORLD_DATA_PATH R in
        let* cur := json_load orig in
        json_dump cur f
      else ret tt) >>
     (* Save new world data *)
     let* f := open_ WORLD_DATA_PATH W in
     json_dump data f >>
     ret (Response (jsonify (JDict [("message", JStr "World data saved successfully")])) 200))
    (fun e => ret (Response (jsonify (JDict [("error", JStr (str e))])) 500)).

End Root.

(* ===================================================================== *)
(** * [backend/server.py] *)
(* ===================================================================== *)

Module Backend.

Definition WORLD_DATA_PATH : string := "./data/world.json".

Definition get_world : M response :=
  try_except
    (let* f := open_ WORLD_DATA_PATH R in
     let* doc := json_load f in
     ret (Response (jsonify doc) 200))
    (fun e => ret (Response (jsonify (JDict [("error", JStr (str e))])) 500)).

(** [len(o.get(k, []))] *)
Definition len_of (o : json) (k : string) : result nat :=
  rbind (py_get o k (JList [])) py_len.

(** [[obj['id'] for obj in data.get('objects', [])][:3]] *)
Definition first_ids (data : json) : result (list json) :=
  rbind (py_get data "objects" (JList [])) (fun objects =>
  rbind (py_iter objects) (fun objs =>
  rbind (rmap (fun obj => py_getitem obj "id") objs) (fun ids =>
  Ok (take 3 ids)))).

(** [sum(len(obj.get('instances', [])) for obj in data.get('objects', []))] *)
Definition total_instances (data : json) : result nat :=
  rbind (py_get data "objects" (JList [])) (fun objects =>
  rbind (py_iter objects) (fun objs =>
  rbind (rmap (fun obj => len_of obj "instances") objs) (fun lens =>
  Ok (py_sum lens)))).

Definition save_world (request : request) : M response :=
  try_except
    (let* data := lift (get_json request) in
     let* n_objects := lift (len_of data "objects") in
     let* n_spawners := lift (len_of data "spawners") in
     print (LogReceived n_objects n_spawners) >>
     (* Log a sample of the objects *)
     let* objects := lift (py_get data "objects" JNull) in
     (if py_truthy objects then
        let* ids := lift (first_ids data) in
        print (LogFirstObjects ids) >>
        (* Count total instances *)
        let* total := lift (total_instances data) in
        print (LogTotalInstances total)
      else ret tt) >>
     (* Create backup of current world data *)
     let* ex := path_exists WORLD_DATA_PATH in
     (if ex then
        let* f := open_ (WORLD_DATA_PATH +:+ ".bak") W in
        let* orig := open_ WORLD_DATA_PATH R in
        let* orig_data := json_load orig in
        let* n := lift (len_of orig_data "objects") in
        print (LogBackup n) >>
        json_dump orig_data f
      else ret tt) >>
     (* Save new world data *)
     let* f := open_ WORLD_DATA_PATH W in
     json_dump data f >>
     print (LogSaved WORLD_DATA_PATH) >>
     ret (Response (jsonify (JDict [("message", JStr "World data saved successfully")])) 200))
    (fun e =>
       print (LogError (str e)) >>
       ret (Response (jsonify (JDict [("error", JStr (str e))])) 500)).

End Backend.

(* ===================================================================== *)
(** * The file operations of [save_world], in order *)
(* ===================================================================== *)

(** The events that touch a file: every event but a [print]. *)
Definition is_file_event (e : event) : bool :=
  match e with
  | EPrint _ => false
  | _ => true
  end.

Definition file_events (evs : list event) : list event :=
  List.filter is_file_event evs.

Definition ok_response : response :=
  Response (JDict [("message", JStr "World data saved successfully")]) 200.

Definition error_response (e : exn) : response :=
  Response (JDict [("error", JStr (str e))]) 500.

(** Both files run the same file operations; the backend can also raise
    between them, from the lines that print.  [diag data] is the exception
    those lines raise on the request's document before any file is
    touched, and [check cur] the exception they raise on the current
    document once it is loaded ([None]: they raise nothing).  For these two
    and the document path, [save_flow] gives the response of [save_world],
    the files it leaves and the file events it makes, from the files
    before: the handlers are proved equal to it below. *)
Section Flow.
Variables (diag check : json -> option exn) (path : string).

Definition backup_flow (fs : gmap string node) (creatable : bool)
  : result unit * gmap string node * list event :=
  let bak := path +:+ ".bak" in
  match fs !! path with
  | None => (Ok tt, fs, [])
  | Some _ =>
      match write_access fs creatable bak with
      | Raise e => (Raise e, fs, [EOpen bak W])
      | Ok pb =>
          let opened := [EOpen bak W; EOpen path R] in
          let truncated := <[bak := File pb ""]> fs in
          match read_access fs path with
          | Raise e => (Raise e, truncated, opened)
          | Ok _ =>
              match json_loads (text_of fs path) with
              | None => (Raise JSONDecodeError, truncated, opened)
              | Some cur =>
                  match check cur with
                  | Some e => (Raise e, truncated, opened)
                  | None =>
                      (Ok tt, <[bak := File pb (json_dumps cur)]> fs,
                       opened ++ [EWrite bak (json_dumps cur)])
                  end
              end
          end
      end
  end.

Definition save_flow (data : result json) (fs : gmap string node) (creatable : bool)
  : response * gmap string node * list event :=
  match data with
  | Raise e => (error_response e, fs, [])
  | Ok doc =>
      match diag doc with
      | Some e => (error_response e, fs, [])
      | None =>
          match backup_flow fs creatable with
          | (Raise e, fs1, evs) => (error_response e, fs1, evs)
          | (Ok _, fs1, evs) =>
              match write_access fs1 creatable path with
              | Raise e => (error_response e, fs1, evs ++ [EOpen path W])
              | Ok p =>
                  (ok_response, <[path := File p (json_dumps doc)]> fs1,
                   evs ++ [EOpen path W; EWrite path (json_dumps doc)])
              end
          end
      end
  end.

(** A handler [save] runs the flow: it always returns a response, leaves
    the files of the flow, and its file events are those of the flow. *)
Definition runs_flow (save : request -> M response) : Prop :=
  forall (req : request) (w : world),
    exists evs : list event,
      let '(r, fs, fevs) := save_flow (get_json req) (files w) (can_create w) in
      save req w = (Ok r, World fs (can_create w) (trace w ++ evs))
      /\ file_events evs = fevs.

End Flow.

(** The lines of the backend that print raise what the operations on the
    request's document raise, in the order of the code. *)
Definition raised {A : Type} (r : result A) : option exn :=
  match r with
  | Ok _ => None
  | Raise e => Some e
  end.

Definition first_raised (l : list (option exn)) : option exn :=
  List.fold_right (fun o rest => match o with Some e => Some e | None => rest end) None l.

Definition backend_diag (data : json) : option exn :=
  first_raised
    [raised (Backend.len_of data "objects");
     raised (Backend.len_of data "spawners");
     raised (py_get data "objects" JNull);
     match py_get data "objects" JNull with
     | Ok objects =>
         if py_truthy objects
         then first_raised [raised (Backend.first_ids data);
                            raised (Backend.total_instances data)]
         else None
     | Raise _ => None
     end].

Definition backend_check (cur : json) : option exn :=
  raised (Backend.len_of cur "objects").

Definition no_exn (_ : json) : option exn := None.


(** [get_world] as a function of the files *)
Definition get_flow (path : string) (fs : gmap string node) : response :=
  match read_access fs path with
  | Raise e => error_response e
  | Ok _ =>
      match json_loads (text_of fs path) with
      | Some doc => Response doc 200
      | None => error_response JSONDecodeError
      end
  end.

(** The two files of the repository *)
Inductive variant : Type :=
| ServerPy
| BackendServerPy.

Definition path_of (v : variant) : string :=
  match v with
  | ServerPy => Root.WORLD_DATA_PATH
  | BackendServerPy => Backend.WORLD_DATA_PATH
  end.

Definition backup_path_of (v : variant) : string := path_of v +:+ ".bak".

Definition get_world_of (v : variant) : M response :=
  match v with
  | ServerPy => Root.get_world
  | BackendServerPy => Backend.get_world
  end.

Definition save_world_of (v : variant) : request -> M response :=
  match v with
  | ServerPy => Root.save_world
  | BackendServerPy => Backend.save_world
  end.

Definition diag_of (v : variant) : json -> option exn :=
  match v with
  | ServerPy => no_exn
  | BackendServerPy => backend_diag
  end.

Definition check_of (v : variant) : json -> option exn :=
  match v with
  | ServerPy => no_exn
  | BackendServerPy => backend_check
  end.

(** The scenario of the specification: the document on disk, the document
    posted, and the world and request they make. *)
Definition scenario_initial : json :=
  JDict [("objects", JList []); ("spawners", JList [])].

Definition scenario_posted : json :=
  JDict [("objects", JList [JDict [("id", JStr "a");
                                   ("instances", JList [JInt 1; JInt 2])]]);
         ("spawners", JList [])].

Definition scenario_world (v : variant) : world :=
  World {[ path_of v := File default_perms (json_dumps scenario_initial) ]} true [].

Definition scenario_request : request :=
  Request (Some (json_dumps scenario_posted)).

(** A world whose document is read-only: the backup can be written, the
    document cannot. *)
Definition readonly_world (v : variant) : world :=
  World {[ path_of v := File (Perms true false) (json_dumps scenario_initial) ]} true [].


(* ===================================================================== *)
(** * The route table and sequences of requests *)
(* ===================================================================== *)

(** The two routes of the application: [@app.route('/api/world',
    methods=['GET'])] sends a request to [get_world], and
    [@app.route('/api/world', methods=['POST'])] to [save_world]. *)
Inductive api_call : Type :=
| GetWorld
| SaveWorld (req : request).

Definition serve (v : variant) (c : api_call) : M response :=
  match c with
  | GetWorld => get_world_of v
  | SaveWorld req => save_world_of v req
  end.

(** The state after the calls were served one after the other. *)
Fixpoint serve_all (v : variant) (calls : list api_call) (w : world) : world :=
  match calls with
  | [] => w
  | c :: rest => serve_all v rest (snd (serve v c w))
  end.

(** The document path holds a readable file whose text decodes. *)
Definition healthy (v : variant) (fs : gmap string node) : Prop :=
  exists pm text doc,
    fs !! path_of v = Some (File pm text) /\ readable pm = true
    /\ json_loads text = Some doc.

(** The values [len] takes: [str], [list] and [dict]. *)
Definition has_len (o : json) : bool :=
  match o with
  | JStr _ | JList _ | JDict _ => true
  | _ => false
  end.

Definition lookup_default (k : string) (d : list (string * json)) (default : json) : json :=
  match dict_lookup k d with
  | Some v => v
  | None => default
  end.

(** An item of [objects] that the lines that print go through: a dict
    with an [id], whose [instances], when it has some, have a length. *)
Definition object_ok (obj : json) : bool :=
  match obj with
  | JDict d =>
      match dict_lookup "id" d with
      | Some _ => has_len (lookup_default "instances" d (JList []))
      | None => false
      end
  | _ => false
  end.

(** The documents the lines of the backend that print go through without
    raising: a dict whose [objects] and [spawners], when present, have a
    length, and whose [objects], when not empty, is a list of items as
    above. *)
Definition well_shaped (doc : json) : bool :=
  match doc with
  | JDict d =>
      has_len (lookup_default "objects" d (JList []))
      && has_len (lookup_default "spawners" d (JList []))
      && (if py_truthy (lookup_default "objects" d JNull)
          then match lookup_default "objects" d (JList []) with
               | JList objs => forallb object_ok objs
               | _ => false
               end
          else true)
  | _ => false
  end.

(* ===================================================================== *)
(** * Well-formed documents *)
(* ===================================================================== *)

(** The documents the decoder produces: no dict has one key twice. *)
#[warnings="-register-all"] Inductive wf : json -> Prop :=
| wf_null : wf JNull
| wf_bool b : wf (JBool b)
| wf_int n : wf (JInt n)
| wf_str s : wf (JStr s)
| wf_list l : Forall wf l -> wf (JList l)
| wf_dict d : NoDup (map fst d) -> Forall (fun kv => wf (snd kv)) d -> wf (JDict d).

(** Induction on documents, with the hypothesis for every item of a list
    and every value of a dict. *)
Fixpoint json_ind (P : json -> Prop)
  (Hnull : P JNull) (Hbool : forall b, P (JBool b)) (Hint : forall n, P (JInt n))
  (Hstr : forall s, P (JStr s))
  (Hlist : forall l, Forall P l -> P (JList l))
  (Hdict : forall d, Forall (fun kv => P (snd kv)) d -> P (JDict d))
  (o : json) {struct o} : P o :=
  match o with
  | JNull => Hnull
  | JBool b => Hbool b
  | JInt n => Hint n
  | JStr s => Hstr s
  | JList l =>
      Hlist l ((fix items (l : list json) : Forall P l :=
                  match l with
                  | [] => @List.Forall_nil _ P
                  | x :: l' =>
                      @List.Forall_cons _ P x l'
                        (json_ind P Hnull Hbool Hint Hstr Hlist Hdict x) (items l')
                  end) l)
  | JDict d =>
      Hdict d ((fix entries (d : list (string * json)) : Forall (fun kv => P (snd kv)) d :=
                  match d with
                  | [] => List.Forall_nil _
                  | kv :: d' =>
                      @List.Forall_cons _ (fun kv => P (snd kv)) kv d'
                        (json_ind P Hnull Hbool Hint Hstr Hlist Hdict (snd kv)) (entries d')
                  end) d)
  end.

(** The fuel [scan_once] needs to decode the encoding of a document. *)
Fixpoint need (o : json) : nat :=
  match o with
  | JList l => S (list_sum (map (fun x => S (need x)) l))
  | JDict d => S (list_sum (map (fun kv => S (need (snd kv))) d))
  | _ => 1
  end.

(** The text after an encoded number must not go on with a digit. *)
Definition no_digit_head (s : string) : Prop :=
  match s with
  | EmptyString => True
  | String c _ => digit_of c = None
  end.

(** The first character of an encoded value: not white space, not a
    closing bracket. *)
Definition value_head (s : string) : Prop :=
  match s with
  | EmptyString => False
  | String c _ => is_ws c = false /\ c <> "]"%char /\ c <> "}"%char
  end.

(* ===================================================================== *)
(** * Notions for the proofs about the decoder *)
(* ===================================================================== *)

(** The first character of a number: a digit or the minus sign. *)
Definition number_head (c : ascii) : bool :=
  match digit_of c with
  | Some _ => true
  | None => Ascii.eqb c "-"%char
  end.


(** What the round trip says of one document; the induction carries it to
    the items of a list and the values of a dict. *)
Definition decodes (o : json) : Prop :=
  forall (level fuel : nat) (rest : string),
    need o <= fuel -> no_digit_head rest ->
    scan_once fuel (iterencode level o +:+ rest) = Some (o, rest).


(** [key: value], the text of one entry of a dict *)
Definition entry_text (level : nat) (kv : string * json) : string :=
  encode_basestring_ascii (fst kv) +:+ ": " +:+ iterencode level (snd kv).


(* ===================================================================== *)
(** * The decoder inverts the encoder *)
(* ===================================================================== *)

Lemma append_cons (c : ascii) (s t : string) : String c s +:+ t = String c (s +:+ t).
Proof. reflexivity. Qed.

Lemma append_nil_l (t : string) : "" +:+ t = t.
Proof. reflexivity. Qed.

Lemma append_nil_r (s : string) : s +:+ "" = s.
Proof. induction s as [|c s IH]; [reflexivity|]. rewrite append_cons, IH. reflexivity. Qed.

Lemma append_assoc (s t u : string) : (s +:+ t) +:+ u = s +:+ (t +:+ u).
Proof.
  induction s as [|c s IH]; [reflexivity|].
  rewrite !append_cons, IH. reflexivity.
Qed.

Lemma length_append (s t : string) :
  String.length (s +:+ t) = String.length s + String.length t.
Proof.
  induction s as [|c s IH]; [reflexivity|].
  rewrite append_cons. simpl. rewrite IH. reflexivity.
Qed.

Lemma scanstring_escape_char (c : ascii) (t : string) :
  scanstring (escape_char c +:+ t) = cons_char c (scanstring t).
Proof. destruct c as [[] [] [] [] [] [] [] []]; reflexivity. Qed.

Lemma scanstring_escape (s rest : string) :
  scanstring (escape s +:+ String dquote rest) = Some (s, rest).
Proof.
  induction s as [|c s IH]; [reflexivity|].
  simpl escape. rewrite append_assoc, scanstring_escape_char, IH. reflexivity.
Qed.

Lemma scan_once_string (fuel : nat) (s rest : string) :
  scan_once (S fuel) (encode_basestring_ascii s +:+ rest) = Some (JStr s, rest).
Proof.
  unfold encode_basestring_ascii. rewrite append_cons, append_assoc, append_cons, append_nil_l.
  simpl scan_once. rewrite scanstring_escape. reflexivity.
Qed.

(** ** Numbers *)

Lemma scan_digits_string_of_uint (d : Decimal.uint) (rest : string) :
  no_digit_head rest ->
  scan_digits (NilEmpty.string_of_uint d +:+ rest) = (d, rest).
Proof.
  intros Hrest.
  induction d as [|d IH|d IH|d IH|d IH|d IH|d IH|d IH|d IH|d IH|d IH];
    simpl NilEmpty.string_of_uint;
    try (rewrite append_cons; simpl scan_digits; rewrite IH; reflexivity).
  rewrite append_nil_l. destruct rest as [|c rest]; [reflexivity|].
  simpl in Hrest. simpl. rewrite Hrest. reflexivity.
Qed.

Lemma to_uint_unorm (p : positive) : Decimal.unorm (Pos.to_uint p) = Pos.to_uint p.
Proof.
  rewrite <- DecimalPos.Unsigned.to_of, DecimalPos.Unsigned.of_to. reflexivity.
Qed.

Lemma to_uint_head (p : positive) (d : Decimal.uint) : Pos.to_uint p <> Decimal.D0 d.
Proof.
  intros H. pose proof (to_uint_unorm p) as Hn. rewrite H in Hn.
  rewrite DecimalFacts.unorm_D0 in Hn.
  destruct (Decimal.uint_eq_dec d Decimal.Nil) as [->|Hd].
  - apply (DecimalPos.Unsigned.to_uint_nonzero p). exact H.
  - pose proof (DecimalFacts.nb_digits_unorm d Hd) as Hle.
    rewrite Hn in Hle. simpl in Hle. lia.
Qed.

Lemma scan_natural_to_uint (p : positive) (rest : string) :
  no_digit_head rest ->
  scan_natural (NilEmpty.string_of_uint (Pos.to_uint p) +:+ rest)
  = Some (Pos.to_uint p, rest).
Proof.
  intros Hrest.
  pose proof (to_uint_head p) as Hhead.
  pose proof (DecimalPos.Unsigned.to_uint_nonnil p) as Hnil.
  pose proof (scan_digits_string_of_uint (Pos.to_uint p) rest Hrest) as Hscan.
  destruct (Pos.to_uint p) as [|d|d|d|d|d|d|d|d|d|d];
    try (exfalso; apply Hnil; reflexivity);
    try (exfalso; apply (Hhead d); reflexivity);
    simpl NilEmpty.string_of_uint in *; rewrite append_cons in *;
    unfold scan_natural; rewrite Hscan; reflexivity.
Qed.

Lemma scan_number_int_repr (n : Z) (rest : string) :
  no_digit_head rest ->
  scan_number (int_repr n +:+ rest) = Some (n, rest).
Proof.
  intros Hrest. unfold int_repr.
  pose proof (DecimalZ.of_to n) as Hval.
  destruct n as [|p|p]; simpl Z.to_int in *; [reflexivity| |];
    pose proof (scan_natural_to_uint p rest Hrest) as Hnat;
    pose proof (to_uint_head p) as Hhead;
    pose proof (DecimalPos.Unsigned.to_uint_nonnil p) as Hnil;
    unfold NilZero.string_of_int, NilZero.string_of_uint;
    destruct (Pos.to_uint p) as [|d|d|d|d|d|d|d|d|d|d];
    try (exfalso; apply Hnil; reflexivity);
    try (exfalso; apply (Hhead d); reflexivity);
    simpl NilEmpty.string_of_uint in *; rewrite ?append_cons in *;
    unfold scan_number; rewrite Hnat, Hval; reflexivity.
Qed.

Lemma scan_once_number (fuel : nat) (c : ascii) (s : string) :
  number_head c = true ->
  scan_once (S fuel) (String c s)
  = match scan_number (String c s) with
    | Some (n, r) => Some (JInt n, r)
    | None => None
    end.
Proof.
  destruct c as [[] [] [] [] [] [] [] []]; intros H; try discriminate H; reflexivity.
Qed.

Lemma int_repr_head (n : Z) :
  exists c s, int_repr n = String c s /\ number_head c = true.
Proof.
  unfold int_repr. destruct n as [|p|p]; simpl Z.to_int.
  - eexists _, _. split; reflexivity.
  - pose proof (DecimalPos.Unsigned.to_uint_nonnil p) as Hnil.
    unfold NilZero.string_of_int, NilZero.string_of_uint.
    destruct (Pos.to_uint p) as [|d|d|d|d|d|d|d|d|d|d];
      try (exfalso; apply Hnil; reflexivity);
      eexists _, _; split; reflexivity.
  - eexists _, _. split; reflexivity.
Qed.

Lemma scan_once_int (fuel : nat) (n : Z) (rest : string) :
  no_digit_head rest ->
  scan_once (S fuel) (int_repr n +:+ rest) = Some (JInt n, rest).
Proof.
  intros Hrest. destruct (int_repr_head n) as (c & s & E & Hc).
  rewrite E, append_cons, (scan_once_number _ _ _ Hc), <- append_cons, <- E.
  rewrite (scan_number_int_repr n rest Hrest). reflexivity.
Qed.

(** ** White space and first characters *)

Lemma skip_ws_indentation (level : nat) (s : string) :
  skip_ws (indentation level +:+ s) = skip_ws s.
Proof.
  induction level as [|level IH]; [reflexivity|].
  simpl indentation. rewrite append_assoc, !append_cons, append_nil_l.
  simpl skip_ws. exact IH.
Qed.

Lemma skip_ws_newline_indent (level : nat) (s : string) :
  skip_ws (newline_indent level +:+ s) = skip_ws s.
Proof.
  unfold newline_indent. rewrite append_cons. simpl skip_ws.
  apply skip_ws_indentation.
Qed.

Lemma skip_ws_value (s : string) : value_head s -> skip_ws s = s.
Proof.
  destruct s as [|c s]; [intros []|]. intros (Hws & _). simpl. rewrite Hws. reflexivity.
Qed.

Lemma number_head_value (c : ascii) (s : string) :
  number_head c = true -> value_head (String c s).
Proof.
  destruct c as [[] [] [] [] [] [] [] []]; intros H; try discriminate H;
    (split; [reflexivity | split; discriminate]).
Qed.

Lemma value_head_iterencode (level : nat) (o : json) (t : string) :
  value_head (iterencode level o +:+ t).
Proof.
  destruct o as [|[]|n|s|[|x l]|[|kv d]]; simpl iterencode;
    try (rewrite append_cons; split; [reflexivity | split; discriminate]).
  - destruct (int_repr_head n) as (c & s & -> & Hc). rewrite append_cons.
    apply number_head_value, Hc.
  - unfold encode_basestring_ascii. rewrite append_cons.
    split; [reflexivity | split; discriminate].
Qed.

Lemma no_digit_head_newline_indent (level : nat) (t : string) :
  no_digit_head (newline_indent level +:+ t).
Proof. reflexivity. Qed.

Lemma no_digit_head_comma (t : string) : no_digit_head ("," +:+ t).
Proof. reflexivity. Qed.

(** ** One step of each loop of the decoder *)

Lemma value_head_not_close (s : string) :
  value_head s -> head_is "]" s = false /\ head_is "}" s = false.
Proof.
  destruct s as [|c s]; [intros []|]. intros (_ & H1 & H2). simpl.
  split; apply Ascii.eqb_neq; assumption.
Qed.

Lemma scan_once_open_list (fuel : nat) (s1 s : string) :
  skip_ws s1 = s -> value_head s ->
  scan_once (S fuel) (String "[" s1)
  = match array_loop fuel s with
    | Some (values, r) => Some (JList values, r)
    | None => None
    end.
Proof.
  intros <- Hv. apply value_head_not_close in Hv as [Hv _].
  simpl scan_once. rewrite Hv. reflexivity.
Qed.

Lemma scan_once_open_dict (fuel : nat) (s1 s : string) :
  skip_ws s1 = s -> value_head s ->
  scan_once (S fuel) (String "{" s1)
  = match object_loop fuel s with
    | Some (pairs, r) => Some (JDict (dict_of_pairs pairs), r)
    | None => None
    end.
Proof.
  intros <- Hv. apply value_head_not_close in Hv as [_ Hv].
  simpl scan_once. rewrite Hv. reflexivity.
Qed.

Lemma array_loop_last (fuel : nat) (s r r' : string) (v : json) :
  scan_once fuel s = Some (v, r) -> skip_ws r = String "]" r' ->
  array_loop (S fuel) s = Some ([v], r').
Proof. intros H1 H2. simpl. rewrite H1, H2. reflexivity. Qed.

Lemma array_loop_more (fuel : nat) (s r r' r'' : string) (v : json) (vs : list json) :
  scan_once fuel s = Some (v, r) -> skip_ws r = String "," r' ->
  array_loop fuel (skip_ws r') = Some (vs, r'') ->
  array_loop (S fuel) s = Some (v :: vs, r'').
Proof. intros H1 H2 H3. simpl. rewrite H1, H2. simpl. rewrite H3. reflexivity. Qed.

Lemma object_loop_entry (fuel : nat) (k s : string) :
  value_head s ->
  object_loop (S fuel) (encode_basestring_ascii k +:+ ": " +:+ s)
  = match scan_once fuel s with
    | None => None
    | Some (v, r2) =>
        if head_is "}" (skip_ws r2) then Some ([(k, v)], tail (skip_ws r2))
        else if head_is "," (skip_ws r2) then
          match object_loop fuel (skip_ws (tail (skip_ws r2))) with
          | Some (pairs, r4) => Some ((k, v) :: pairs, r4)
          | None => None
          end
        else None
    end.
Proof.
  intros Hv. unfold encode_basestring_ascii.
  rewrite append_cons, append_assoc, append_cons, append_nil_l.
  simpl object_loop. rewrite scanstring_escape.
  rewrite !append_cons, append_nil_l.
  destruct s as [|c s]; [destruct Hv|]. destruct Hv as (Hws & _).
  simpl. rewrite Hws. reflexivity.
Qed.

(** ** Lists and dicts *)

Lemma join_items_cons (sep a : string) {A : Type} (f : A -> string) (b : A) (l : list A) :
  join_items sep (a :: map f (b :: l)) = a +:+ sep +:+ join_items sep (map f (b :: l)).
Proof. reflexivity. Qed.

Lemma value_head_join_values (level : nat) (sep : string) (x : json) (l : list json) (t : string) :
  value_head (join_items sep (map (iterencode level) (x :: l)) +:+ t).
Proof.
  destruct l as [|y l].
  - apply value_head_iterencode.
  - rewrite map_cons, join_items_cons, append_assoc. apply value_head_iterencode.
Qed.

Lemma skip_ws_close (c : ascii) (level : nat) (rest : string) :
  is_ws c = false ->
  skip_ws (newline_indent level +:+ String c "" +:+ rest) = String c rest.
Proof.
  intros Hc. rewrite skip_ws_newline_indent, append_cons, append_nil_l.
  simpl. rewrite Hc. reflexivity.
Qed.

Lemma array_loop_items (level : nat) (l : list json) (x : json) (rest : string) (fuel : nat) :
  Forall decodes (x :: l) ->
  list_sum (map (fun o => S (need o)) (x :: l)) <= fuel ->
  array_loop fuel
    (join_items ("," +:+ newline_indent (S level)) (map (iterencode (S level)) (x :: l))
       +:+ newline_indent level +:+ "]" +:+ rest)
  = Some (x :: l, rest).
Proof.
  revert x fuel. induction l as [|y l IH]; intros x fuel Hall Hfuel.
  - apply Forall_cons in Hall as [Hx _]. simpl in Hfuel.
    destruct fuel as [|fuel]; [lia|].
    simpl map. simpl join_items.
    eapply array_loop_last.
    + apply Hx; [lia | apply no_digit_head_newline_indent].
    + apply skip_ws_close. reflexivity.
  - apply Forall_cons in Hall as [Hx Hall].
    change (list_sum (map (fun o => S (need o)) (x :: y :: l)))
      with (S (need x) + list_sum (map (fun o => S (need o)) (y :: l))) in Hfuel.
    destruct fuel as [|fuel]; [lia|].
    rewrite map_cons, join_items_cons, !append_assoc.
    eapply array_loop_more.
    + apply Hx; [lia | apply no_digit_head_comma].
    + rewrite append_cons, append_nil_l. reflexivity.
    + rewrite skip_ws_newline_indent, skip_ws_value by apply value_head_join_values.
      apply IH; [exact Hall | lia].
Qed.

Lemma value_head_string (s t : string) : value_head (encode_basestring_ascii s +:+ t).
Proof.
  unfold encode_basestring_ascii. rewrite append_cons.
  split; [reflexivity | split; discriminate].
Qed.

Lemma value_head_join_entries (level : nat) (sep : string) (kv : string * json)
    (d : list (string * json)) (t : string) :
  value_head (join_items sep (map (entry_text level) (kv :: d)) +:+ t).
Proof.
  destruct d as [|kv' d].
  - simpl map. simpl join_items. unfold entry_text. rewrite append_assoc.
    apply value_head_string.
  - rewrite map_cons, join_items_cons. unfold entry_text at 1.
    rewrite !append_assoc. apply value_head_string.
Qed.

Lemma object_loop_entries (level : nat) (d : list (string * json)) (kv : string * json)
    (rest : string) (fuel : nat) :
  Forall (fun kv => decodes (snd kv)) (kv :: d) ->
  list_sum (map (fun kv => S (need (snd kv))) (kv :: d)) <= fuel ->
  object_loop fuel
    (join_items ("," +:+ newline_indent (S level)) (map (entry_text (S level)) (kv :: d))
       +:+ newline_indent level +:+ "}" +:+ rest)
  = Some (kv :: d, rest).
Proof.
  revert kv fuel. induction d as [|kv' d IH]; intros [k v] fuel Hall Hfuel.
  - apply Forall_cons in Hall as [Hx _]. simpl in Hx, Hfuel.
    destruct fuel as [|fuel]; [lia|].
    simpl map. simpl join_items. unfold entry_text. simpl fst. simpl snd.
    rewrite !append_assoc.
    rewrite object_loop_entry by apply value_head_iterencode.
    rewrite Hx by (lia || apply no_digit_head_newline_indent).
    rewrite skip_ws_close by reflexivity. reflexivity.
  - apply Forall_cons in Hall as [Hx Hall]. simpl in Hx.
    change (list_sum (map (fun kv => S (need (snd kv))) ((k, v) :: kv' :: d)))
      with (S (need v) + list_sum (map (fun kv => S (need (snd kv))) (kv' :: d))) in Hfuel.
    destruct fuel as [|fuel]; [lia|].
    rewrite map_cons, join_items_cons. unfold entry_text at 1. simpl fst. simpl snd.
    rewrite !append_assoc.
    rewrite object_loop_entry by apply value_head_iterencode.
    rewrite Hx by (lia || apply no_digit_head_comma).
    rewrite append_cons, append_nil_l.
    change (skip_ws (String "," ?t)) with (String ","%char t).
    change (head_is "}" (String "," ?t)) with false.
    change (head_is "," (String "," ?t)) with true.
    cbv beta iota. change (tail (String "," ?t)) with t.
    rewrite skip_ws_newline_indent, skip_ws_value by apply value_head_join_entries.
    rewrite IH; [reflexivity | exact Hall | lia].
Qed.

Lemma dict_set_fresh (k : string) (v : json) (d : list (string * json)) :
  k ∉ map fst d -> dict_set k v d = d ++ [(k, v)].
Proof.
  induction d as [|[k' v'] d IH]; intros Hk; [reflexivity|].
  simpl in Hk. apply not_elem_of_cons in Hk as [Hne Hk].
  simpl. destruct (String.eqb_spec k k') as [->|_]; [contradiction|].
  rewrite IH by exact Hk. reflexivity.
Qed.

Lemma fold_dict_set_nodup (d acc : list (string * json)) :
  NoDup (map fst (acc ++ d)) ->
  fold_left (fun d kv => dict_set (fst kv) (snd kv) d) d acc = acc ++ d.
Proof.
  revert acc. induction d as [|[k v] d IH]; intros acc Hnd.
  - rewrite app_nil_r. reflexivity.
  - simpl fold_left. rewrite dict_set_fresh.
    + rewrite IH; rewrite <- app_assoc; [reflexivity | exact Hnd].
    + rewrite map_app in Hnd. apply NoDup_app in Hnd as (_ & Hdis & _).
      intros Hin. apply (Hdis k Hin). simpl. left.
Qed.

Lemma dict_of_pairs_nodup (d : list (string * json)) :
  NoDup (map fst d) -> dict_of_pairs d = d.
Proof. intros Hnd. apply (fold_dict_set_nodup d [] Hnd). Qed.

Lemma iterencode_list (level : nat) (x : json) (l : list json) :
  iterencode level (JList (x :: l))
  = "[" +:+ newline_indent (S level)
      +:+ join_items ("," +:+ newline_indent (S level)) (map (iterencode (S level)) (x :: l))
      +:+ newline_indent level +:+ "]".
Proof. reflexivity. Qed.

Lemma iterencode_dict (level : nat) (kv : string * json) (d : list (string * json)) :
  iterencode level (JDict (kv :: d))
  = "{" +:+ newline_indent (S level)
      +:+ join_items ("," +:+ newline_indent (S level)) (map (entry_text (S level)) (kv :: d))
      +:+ newline_indent level +:+ "}".
Proof. reflexivity. Qed.

(** The decoder reads back what the encoder wrote, whatever follows it. *)
Lemma scan_once_iterencode (o : json) : wf o -> decodes o.
Proof.
  induction o as [|b|n|s|l IH|d IH] using json_ind; intros Hwf level fuel rest Hfuel Hrest;
    (destruct fuel as [|fuel]; [simpl in Hfuel; lia|]).
  - reflexivity.
  - destruct b; reflexivity.
  - apply scan_once_int, Hrest.
  - apply scan_once_string.
  - inversion Hwf as [| | | |l' Hall|]; subst.
    destruct l as [|x l]; [reflexivity|].
    rewrite iterencode_list, !append_assoc, append_cons, append_nil_l.
    erewrite scan_once_open_list;
      [| rewrite skip_ws_newline_indent; apply skip_ws_value, value_head_join_values
       | apply value_head_join_values].
    rewrite array_loop_items; [reflexivity | | simpl in Hfuel |- *; lia].
    apply Forall_forall. intros y Hy.
    rewrite Forall_forall in IH, Hall. apply IH; [exact Hy | apply Hall, Hy].
  - inversion Hwf as [| | | | |d' Hnd Hall]; subst.
    destruct d as [|kv d]; [reflexivity|].
    rewrite iterencode_dict, !append_assoc, append_cons, append_nil_l.
    erewrite scan_once_open_dict;
      [| rewrite skip_ws_newline_indent; apply skip_ws_value, value_head_join_entries
       | apply value_head_join_entries].
    rewrite object_loop_entries.
    + rewrite dict_of_pairs_nodup by exact Hnd. reflexivity.
    + apply Forall_forall. intros y Hy.
      rewrite Forall_forall in IH, Hall. apply IH; [exact Hy | apply Hall, Hy].
    + simpl in Hfuel |- *. lia.
Qed.

(** ** The fuel of [json_loads] is enough *)

Lemma length_join_items (sep : string) (items : list string) :
  1 <= String.length sep ->
  list_sum (map (fun s => S (String.length s)) items)
  <= S (String.length (join_items sep items)).
Proof.
  intros Hsep. induction items as [|a [|b items] IH].
  - simpl. lia.
  - simpl. lia.
  - change (join_items sep (a :: b :: items))
      with (a +:+ sep +:+ join_items sep (b :: items)).
    rewrite !length_append.
    change (list_sum (map (fun s => S (String.length s)) (a :: b :: items)))
      with (S (String.length a) + list_sum (map (fun s => S (String.length s)) (b :: items))).
    lia.
Qed.

Lemma list_sum_le {A : Type} (f g : A -> nat) (l : list A) :
  Forall (fun x => f x <= g x) l ->
  list_sum (map f l) <= list_sum (map g l).
Proof. induction 1 as [|x l Hx _ IH]; simpl; lia. Qed.

Lemma need_le_length (o : json) (level : nat) :
  need o <= String.length (iterencode level o).
Proof.
  revert level.
  induction o as [|b|n|s|l IH|d IH] using json_ind; intros level.
  - simpl. lia.
  - destruct b; simpl; lia.
  - simpl. destruct (int_repr_head n) as (c & s & -> & _). simpl. lia.
  - simpl. lia.
  - destruct l as [|x l]; [simpl; lia|].
    rewrite iterencode_list, !length_append.
    pose proof (length_join_items ("," +:+ newline_indent (S level))
                  (map (iterencode (S level)) (x :: l))) as Hj.
    rewrite map_map in Hj.
    assert (Hle : list_sum (map (fun o => S (need o)) (x :: l))
                  <= list_sum (map (fun o => S (String.length (iterencode (S level) o))) (x :: l))).
    { apply list_sum_le. eapply Forall_impl; [exact IH|].
      intros o Ho. simpl in Ho. specialize (Ho (S level)). lia. }
    change (need (JList (x :: l))) with (S (list_sum (map (fun o => S (need o)) (x :: l)))).
    simpl String.length in *. lia.
  - destruct d as [|kv d]; [simpl; lia|].
    rewrite iterencode_dict, !length_append.
    pose proof (length_join_items ("," +:+ newline_indent (S level))
                  (map (entry_text (S level)) (kv :: d))) as Hj.
    rewrite map_map in Hj.
    assert (Hle : list_sum (map (fun kv => S (need (snd kv))) (kv :: d))
                  <= list_sum (map (fun kv => S (String.length (entry_text (S level) kv))) (kv :: d))).
    { apply list_sum_le. eapply Forall_impl; [exact IH|].
      intros e He. simpl in He. specialize (He (S level)).
      unfold entry_text. rewrite !length_append. lia. }
    change (need (JDict (kv :: d)))
      with (S (list_sum (map (fun kv => S (need (snd kv))) (kv :: d)))).
    simpl String.length in *. lia.
Qed.

(** [json.load] of what [json.dump] wrote gives the document back. *)
Lemma json_loads_dumps (o : json) : wf o -> json_loads (json_dumps o) = Some o.
Proof.
  intros Hwf. unfold json_loads, json_dumps.
  pose proof (value_head_iterencode 0 o "") as Hv. rewrite append_nil_r in Hv.
  rewrite (skip_ws_value _ Hv).
  pose proof (scan_once_iterencode o Hwf 0 (S (String.length (iterencode 0 o))) "") as Hs.
  rewrite append_nil_r in Hs. rewrite Hs; [reflexivity | | exact I].
  pose proof (need_le_length o 0). lia.
Qed.

(** ** What the decoder produces is well formed *)

Lemma dict_set_keys (k x : string) (v : json) (d : list (string * json)) :
  x ∈ map fst (dict_set k v d) -> x = k \/ x ∈ map fst d.
Proof.
  induction d as [|[k' v'] d IH]; simpl.
  - intros H. apply list_elem_of_singleton in H. left. exact H.
  - destruct (String.eqb_spec k k') as [->|Hne]; simpl; intros H.
    + right. exact H.
    + apply elem_of_cons in H as [->|H].
      * right. left.
      * destruct (IH H) as [->|Hx]; [left; reflexivity | right; right; exact Hx].
Qed.

Lemma dict_set_nodup (k : string) (v : json) (d : list (string * json)) :
  NoDup (map fst d) -> NoDup (map fst (dict_set k v d)).
Proof.
  induction d as [|[k' v'] d IH]; simpl; intros Hnd.
  - apply NoDup_singleton.
  - apply NoDup_cons in Hnd as [Hk' Hnd].
    destruct (String.eqb_spec k k') as [->|Hne]; simpl.
    + apply NoDup_cons. split; assumption.
    + apply NoDup_cons. split; [|apply IH, Hnd].
      intros Hin. apply dict_set_keys in Hin as [->|Hin]; [apply Hne; reflexivity | exact (Hk' Hin)].
Qed.

Lemma dict_set_wf (k : string) (v : json) (d : list (string * json)) :
  wf v -> Forall (fun kv => wf (snd kv)) d ->
  Forall (fun kv => wf (snd kv)) (dict_set k v d).
Proof.
  intros Hv. induction 1 as [|[k' v'] d Hkv Hd IH]; simpl.
  - apply Forall_cons. split; [exact Hv | apply Forall_nil_2].
  - destruct (String.eqb_spec k k') as [->|Hne].
    + apply Forall_cons. split; [exact Hv | exact Hd].
    + apply Forall_cons. split; [exact Hkv | exact IH].
Qed.

Lemma dict_of_pairs_wf (pairs : list (string * json)) :
  Forall (fun kv => wf (snd kv)) pairs -> wf (JDict (dict_of_pairs pairs)).
Proof.
  intros Hall. unfold dict_of_pairs.
  assert (Hinv : forall acc,
             NoDup (map fst acc) -> Forall (fun kv => wf (snd kv)) acc ->
             let d := fold_left (fun d kv => dict_set (fst kv) (snd kv) d) pairs acc in
             NoDup (map fst d) /\ Forall (fun kv => wf (snd kv)) d).
  { induction Hall as [|[k v] pairs Hkv _ IH]; intros acc Hnd Hwf; simpl.
    - split; assumption.
    - apply IH; [apply dict_set_nodup, Hnd | apply dict_set_wf; assumption]. }
  destruct (Hinv [] NoDup_nil_2 (Forall_nil_2 _)) as [Hnd Hwf].
  apply wf_dict; assumption.
Qed.

Lemma scan_wf (fuel : nat) :
  (forall s v r, scan_once fuel s = Some (v, r) -> wf v)
  /\ (forall s vs r, array_loop fuel s = Some (vs, r) -> Forall wf vs)
  /\ (forall s ps r, object_loop fuel s = Some (ps, r) -> Forall (fun kv => wf (snd kv)) ps).
Proof.
  induction fuel as [|fuel (IHv & IHa & IHo)].
  - repeat split; intros; discriminate.
  - repeat split.
    + intros s v r H. cbn [scan_once] in H.
      repeat case_match; simplify_eq;
        try (constructor; fail);
        try (apply wf_list; eapply IHa; eassumption);
        try (apply dict_of_pairs_wf; eapply IHo; eassumption);
        try (apply wf_list, Forall_nil_2);
        try (apply wf_dict; [apply NoDup_nil_2 | apply Forall_nil_2]).
    + intros s vs r H. cbn [array_loop] in H.
      repeat case_match; simplify_eq;
        repeat (apply Forall_cons; split); try apply Forall_nil_2;
        try (eapply IHv; eassumption); try (eapply IHa; eassumption).
    + intros s ps r H. cbn [object_loop] in H.
      repeat case_match; simplify_eq;
        repeat (apply Forall_cons; split); try apply Forall_nil_2;
        try (eapply IHv; eassumption); try (eapply IHo; eassumption).
Qed.

Lemma json_loads_wf (s : string) (o : json) : json_loads s = Some o -> wf o.
Proof.
  unfold json_loads. intros H.
  destruct (scan_once _ _) as [[v r]|] eqn:E; [|discriminate].
  destruct (skip_ws r); [|discriminate]. injection H as <-.
  eapply (proj1 (scan_wf _)), E.
Qed.


(* ===================================================================== *)
(** * The handlers run the flow *)
(* ===================================================================== *)

Lemma path_bak_ne (p : string) : p +:+ ".bak" <> p.
Proof.
  intros H. apply (f_equal String.length) in H. rewrite length_append in H.
  simpl in H. lia.
Qed.

Lemma read_access_insert_ne (fs : gmap string node) (q p : string) (n : node) :
  q <> p -> read_access (<[q := n]> fs) p = read_access fs p.
Proof. intros H. unfold read_access. rewrite lookup_insert_ne by exact H. reflexivity. Qed.

Lemma write_access_insert_ne (fs : gmap string node) (cc : bool) (q p : string) (n : node) :
  q <> p -> write_access (<[q := n]> fs) cc p = write_access fs cc p.
Proof. intros H. unfold write_access. rewrite lookup_insert_ne by exact H. reflexivity. Qed.

Lemma text_of_insert_ne (fs : gmap string node) (q p : string) (n : node) :
  q <> p -> text_of (<[q := n]> fs) p = text_of fs p.
Proof. intros H. unfold text_of. rewrite lookup_insert_ne by exact H. reflexivity. Qed.

Ltac exec :=
  cbv beta iota zeta delta
    [try_except bind ret lift raise open_ path_exists json_load json_dump write print emit
     set_file jsonify files can_create trace h_path h_mode].

Ltac norm :=
  repeat first
    [ rewrite lookup_insert_eq
    | rewrite lookup_insert_ne by assumption
    | rewrite read_access_insert_ne by assumption
    | rewrite write_access_insert_ne by assumption
    | rewrite text_of_insert_ne by assumption
    | rewrite insert_insert_eq
    | rewrite append_nil_l ];
  cbv beta iota zeta.

Ltac finish :=
  first
    [ exists []; split; [rewrite app_nil_r; reflexivity | reflexivity]
    | eexists; split; [rewrite <- ?app_assoc; reflexivity | reflexivity] ].

Lemma Root_runs_flow : runs_flow no_exn no_exn Root.WORLD_DATA_PATH Root.save_world.
Proof.
  intros req [fs cc tr].
  unfold Root.save_world, save_flow, backup_flow, no_exn.
  pose proof (path_bak_ne Root.WORLD_DATA_PATH) as Hne.
  set (p := Root.WORLD_DATA_PATH) in *. clearbody p.
  exec.
  destruct (get_json req) as [doc|e]; [|finish].
  destruct (fs !! p) as [n|] eqn:Hp; norm.
  - destruct (write_access fs cc (p +:+ ".bak")) as [pb|e] eqn:Hb; norm; [|finish].
    destruct (read_access fs p) as [[]|e] eqn:Hr; norm; [|finish].
    destruct (json_loads (text_of fs p)) as [cur|] eqn:Hl; norm; [|finish].
    destruct (write_access fs cc p) as [pm|e] eqn:Hw; norm; finish.
  - destruct (write_access fs cc p) as [pm|e] eqn:Hw; norm; finish.
Qed.

Lemma Backend_runs_flow :
  runs_flow backend_diag backend_check Backend.WORLD_DATA_PATH Backend.save_world.
Proof.
  intros req [fs cc tr].
  unfold Backend.save_world, save_flow, backup_flow, backend_diag, backend_check.
  pose proof (path_bak_ne Backend.WORLD_DATA_PATH) as Hne.
  set (p := Backend.WORLD_DATA_PATH) in *. clearbody p.
  exec.
  destruct (get_json req) as [doc|e]; [|finish].
  destruct (Backend.len_of doc "objects") as [n1|e]; cbn [raised first_raised fold_right]; [|finish].
  destruct (Backend.len_of doc "spawners") as [n2|e]; cbn [raised first_raised fold_right]; [|finish].
  destruct (py_get doc "objects" JNull) as [objects|e]; cbn [raised first_raised fold_right]; [|finish].
  destruct (py_truthy objects).
  - destruct (Backend.first_ids doc) as [ids|e]; cbn [raised first_raised fold_right]; [|finish].
    destruct (Backend.total_instances doc) as [total|e]; cbn [raised first_raised fold_right]; [|finish].
    destruct (fs !! p) as [n|] eqn:Hp; norm.
    + destruct (write_access fs cc (p +:+ ".bak")) as [pb|e] eqn:Hb; norm; [|finish].
      destruct (read_access fs p) as [[]|e] eqn:Hr; norm; [|finish].
      destruct (json_loads (text_of fs p)) as [cur|] eqn:Hl; norm; [|finish].
      destruct (Backend.len_of cur "objects") as [n3|e]; cbn [raised]; norm; [|finish].
      destruct (write_access fs cc p) as [pm|e] eqn:Hw; norm; finish.
    + destruct (write_access fs cc p) as [pm|e] eqn:Hw; norm; finish.
  - destruct (fs !! p) as [n|] eqn:Hp; norm.
    + destruct (write_access fs cc (p +:+ ".bak")) as [pb|e] eqn:Hb; norm; [|finish].
      destruct (read_access fs p) as [[]|e] eqn:Hr; norm; [|finish].
      destruct (json_loads (text_of fs p)) as [cur|] eqn:Hl; norm; [|finish].
      destruct (Backend.len_of cur "objects") as [n3|e]; cbn [raised]; norm; [|finish].
      destruct (write_access fs cc p) as [pm|e] eqn:Hw; norm; finish.
    + destruct (write_access fs cc p) as [pm|e] eqn:Hw; norm; finish.
Qed.

Lemma variant_runs_flow (v : variant) :
  runs_flow (diag_of v) (check_of v) (path_of v) (save_world_of v).
Proof. destruct v; [apply Root_runs_flow | apply Backend_runs_flow]. Qed.

Lemma get_world_of_flow (v : variant) (w : world) :
  get_world_of v w
  = (Ok (get_flow (path_of v) (files w)),
     World (files w) (can_create w) (trace w ++ [EOpen (path_of v) R])).
Proof.
  destruct w as [fs cc tr].
  destruct v; unfold get_world_of, Root.get_world, Backend.get_world, get_flow, path_of;
    exec;
    (destruct (read_access fs _) as [[]|e]; [|reflexivity]);
    (destruct (json_loads _) as [doc|]; reflexivity).
Qed.

(** What a call of [save_world] that returned tells: the response, the
    files and the file events are those of the flow. *)
Lemma save_world_inv (v : variant) (req : request) (w w' : world) (r : response) :
  save_world_of v req w = (Ok r, w') ->
  exists evs,
    trace w' = trace w ++ evs /\ can_create w' = can_create w
    /\ save_flow (diag_of v) (check_of v) (path_of v) (get_json req) (files w) (can_create w)
       = (r, files w', file_events evs).
Proof.
  intros H. destruct (variant_runs_flow v req w) as (evs & Hrun).
  destruct (save_flow _ _ _ _ _ _) as [[r0 fs] fevs].
  destruct Hrun as [Hrun <-]. rewrite Hrun in H. injection H as <- <-.
  exists evs. repeat split; reflexivity.
Qed.

Lemma write_access_readable (fs : gmap string node) (cc : bool) (p : string) (pm : perms) :
  is_Some (fs !! p) -> read_access fs p = Ok tt -> write_access fs cc p = Ok pm ->
  readable pm = true.
Proof.
  unfold read_access, write_access. intros [n Hn]. rewrite Hn.
  destruct n as [pm' text|]; [|discriminate].
  destruct (readable pm') eqn:Hr; [|discriminate].
  destruct (writable pm'); [|discriminate].
  intros _ [= <-]. exact Hr.
Qed.

Lemma write_access_absent (fs : gmap string node) (cc : bool) (p : string) (pm : perms) :
  fs !! p = None -> write_access fs cc p = Ok pm -> pm = default_perms /\ cc = true.
Proof.
  unfold write_access. intros ->. destruct cc; [|discriminate].
  intros [= <-]. split; reflexivity.
Qed.

(** A call of [save_world] that answered 200: the request carried a
    document, the document path holds its encoding in a readable file, and
    the backup holds the encoding of the document that was there before
    (or is as it was, when there was none). *)
Lemma save_success (v : variant) (req : request) (w w' : world) (r : response) :
  save_world_of v req w = (Ok r, w') -> status r = 200 ->
  exists doc pm,
    get_json req = Ok doc /\ diag_of v doc = None
    /\ files w' !! path_of v = Some (File pm (json_dumps doc)) /\ readable pm = true
    /\ match files w !! path_of v with
       | None => files w' !! backup_path_of v = files w !! backup_path_of v
       | Some _ =>
           exists pb cur,
             read_access (files w) (path_of v) = Ok tt
             /\ json_loads (text_of (files w) (path_of v)) = Some cur
             /\ check_of v cur = None
             /\ files w' !! backup_path_of v = Some (File pb (json_dumps cur))
       end.
Proof.
  intros H Hs. apply save_world_inv in H as (evs & Htr & Hcc & H).
  pose proof (path_bak_ne (path_of v)) as Hne.
  unfold save_flow, backup_flow, backup_path_of in *.
  repeat case_match; simplify_eq; try discriminate Hs;
    match goal with Hw : write_access _ _ (path_of v) = Ok _ |- _ =>
      rewrite ?write_access_insert_ne in Hw by assumption end;
    match goal with Hf : _ = files w' |- _ => rewrite <- Hf end;
    repeat match goal with u : unit |- _ => destruct u end.
  - eexists _, _. split; [reflexivity|]. split; [assumption|].
    split; [apply lookup_insert_eq|]. split.
    + apply (write_access_readable (files w) (can_create w) (path_of v));
        [eexists; eassumption | assumption | assumption].
    + eexists _, _. split; [reflexivity|]. split; [reflexivity|]. split; [assumption|].
      rewrite lookup_insert_ne by (intros E; symmetry in E; exact (Hne E)).
      apply lookup_insert_eq.
  - match goal with Hw : write_access _ _ _ = Ok _ |- _ =>
      eapply write_access_absent in Hw as [-> _]; [|eassumption] end.
    eexists _, _. split; [reflexivity|]. split; [assumption|].
    split; [apply lookup_insert_eq|]. split; [reflexivity|].
    apply lookup_insert_ne. intros E. symmetry in E. exact (Hne E).
Qed.

Lemma get_json_wf (req : request) (doc : json) : get_json req = Ok doc -> wf doc.
Proof.
  unfold get_json. destruct (data req) as [text|].
  - destruct (json_loads text) as [o|] eqn:E; [|discriminate].
    intros [= <-]. apply (json_loads_wf text), E.
  - intros [= <-]. apply wf_null.
Qed.



Lemma text_of_file (fs : gmap string node) (p : string) (pm : perms) (text : string) :
  fs !! p = Some (File pm text) -> text_of fs p = text.
Proof. intros H. unfold text_of. rewrite H. reflexivity. Qed.

(* ===================================================================== *)
(** * Round trip, backup and idempotence *)
(* ===================================================================== *)



Lemma in_file_events (e : event) (evs : list event) :
  is_file_event e = true -> e ∈ evs -> e ∈ file_events evs.
Proof.
  intros He Hin. apply list_elem_of_In, filter_In. split; [|exact He].
  apply list_elem_of_In, Hin.
Qed.

Lemma file_events_in (e : event) (evs : list event) :
  e ∈ file_events evs -> e ∈ evs.
Proof.
  intros Hin. apply list_elem_of_In in Hin. apply filter_In in Hin as [Hin _].
  apply list_elem_of_In, Hin.
Qed.






(* ===================================================================== *)
(** * Errors *)
(* ===================================================================== *)



(** C5. Missing file: when no file is at the document path, [get_world]
    returns a response (it does not raise), the response has status 500
    and carries the message of the failure, and the files are as they
    were.  It holds of both files. *)
Theorem missing_file (v : variant) (w : world) :
  files w !! path_of v = None ->
  exists w',
    get_world_of v w
    = (Ok (Response (JDict [("error", JStr (str (FileNotFoundError (path_of v))))]) 500), w')
    /\ files w' = files w.
Proof.
  intros Hp. rewrite get_world_of_flow.
  unfold get_flow, read_access. rewrite Hp.
  eexists. split; reflexivity.
Qed.

Lemma missing_file_witness :
  files (World ∅ true []) !! Root.WORLD_DATA_PATH = None
  /\ exists w',
       Root.get_world (World ∅ true [])
       = (Ok (Response
                (JDict [("error",
                         JStr "[Errno 2] No such file or directory: 'public/data/world.json'")])
                500), w')
       /\ files w' = files (World ∅ true []).
Proof.
  split; [reflexivity|].
  apply (missing_file ServerPy (World ∅ true [])). reflexivity.
Defined.

(* ===================================================================== *)
(** * The order of the writes *)
(* ===================================================================== *)

Lemma file_events_app_cons (pre post : list event) (e : event) :
  is_file_event e = true ->
  file_events (pre ++ e :: post) = file_events pre ++ e :: file_events post.
Proof.
  intros He. unfold file_events. rewrite List.filter_app. simpl. rewrite He. reflexivity.
Qed.

(** C7. Order of the writes, no rollback: in a call of [save_world] that
    starts with a document at the path, (1) every opening of the document
    path for writing comes after a write to the backup; (2) when nothing
    was written to the backup (the backup step failed, or was not
    reached), the call answers 500, the document path is neither opened
    for writing nor written, and it holds what it held; (3) when the
    backup was written and the call did not answer 200 (the write of the
    document failed), the backup holds what was written to it and the
    document path holds what it held.  It holds of both files. *)
Theorem write_ordering (v : variant) (req : request) (w w' : world) (r : response) :
  is_Some (files w !! path_of v) ->
  save_world_of v req w = (Ok r, w') ->
  exists evs,
    trace w' = trace w ++ evs
    /\ (forall pre post,
          evs = pre ++ EOpen (path_of v) W :: post ->
          exists text, EWrite (backup_path_of v) text ∈ pre)
    /\ ((forall text, EWrite (backup_path_of v) text ∉ evs) ->
        status r = 500
        /\ (EOpen (path_of v) W ∉ evs)
        /\ (forall text, EWrite (path_of v) text ∉ evs)
        /\ files w' !! path_of v = files w !! path_of v)
    /\ (forall text,
          EWrite (backup_path_of v) text ∈ evs -> status r <> 200 ->
          (exists pb, files w' !! backup_path_of v = Some (File pb text))
          /\ files w' !! path_of v = files w !! path_of v).
Proof.
  intros [n Hp] H. apply save_world_inv in H as (evs & Htr & Hcc & H).
  pose proof (path_bak_ne (path_of v)) as Hne.
  assert (Hne' : path_of v <> path_of v +:+ ".bak") by (intros E; symmetry in E; exact (Hne E)).
  destruct w as [fs cc tr], w' as [fs' cc' tr']. cbn [files can_create trace] in *.
  exists evs. split; [exact Htr|]. clear Htr.
  unfold save_flow, backup_flow, backup_path_of in *. rewrite Hp in H.
  assert (Hin : forall e, is_file_event e = true -> e ∈ evs -> e ∈ file_events evs)
    by (intros e; apply in_file_events).
  assert (Hout : forall e, e ∈ file_events evs -> e ∈ evs)
    by (intros e; apply file_events_in).
  assert (Hdec : forall pre post, evs = pre ++ EOpen (path_of v) W :: post ->
            file_events evs = file_events pre ++ EOpen (path_of v) W :: file_events post)
    by (intros pre post ->; apply file_events_app_cons; reflexivity).
  repeat case_match; simplify_eq;
    match goal with HL : _ = file_events _ |- _ =>
      cbn [app] in HL; split; [|split] end.
  all: try (intros pre post E; apply Hdec in E;
            match goal with HL : _ = file_events _ |- _ => rewrite <- HL in E end;
            destruct (file_events pre) as [|x1 [|x2 [|x3 [|x4 [|x5 l]]]]] eqn:Hpre;
            simplify_eq/=; try congruence;
            try match goal with Hl : [] = ?l ++ _ :: _ |- _ => destruct l; discriminate Hl end;
            eexists; apply file_events_in; rewrite Hpre;
            do 2 apply list_elem_of_further; apply list_elem_of_here).
  all: try (intros Hno;
            first
              [ exfalso;
                match goal with HL : _ = file_events _ |- _ =>
                  eapply Hno, Hout; rewrite <- HL;
                  do 2 apply list_elem_of_further; apply list_elem_of_here end
              | split; [reflexivity|];
                split; [|split; [intros text|]];
                try (intros Hx; apply Hin in Hx; [|reflexivity];
                     match goal with HL : _ = file_events _ |- _ => rewrite <- HL in Hx end;
                     repeat (apply elem_of_cons in Hx as [Hx|Hx]; [simplify_eq; congruence|]);
                     apply elem_of_nil in Hx; exact Hx);
                try reflexivity; apply lookup_insert_ne; assumption ]).
  all: intros text Hx Hs; apply Hin in Hx; [|reflexivity];
    match goal with HL : _ = file_events _ |- _ => rewrite <- HL in Hx end;
    repeat (apply elem_of_cons in Hx as [Hx|Hx]; [try discriminate Hx|]);
    try (apply elem_of_nil in Hx; contradiction);
    try (exfalso; apply Hs; reflexivity);
    simplify_eq;
    (split; [eexists; apply lookup_insert_eq | apply lookup_insert_ne; assumption]).
Qed.

Lemma write_ordering_witness :
  is_Some (files (readonly_world ServerPy) !! path_of ServerPy)
  /\ Root.save_world scenario_request (readonly_world ServerPy)
     = (Ok (error_response (PermissionError Root.WORLD_DATA_PATH)),
        snd (Root.save_world scenario_request (readonly_world ServerPy)))
  /\ exists evs,
       trace (snd (Root.save_world scenario_request (readonly_world ServerPy)))
       = trace (readonly_world ServerPy) ++ evs
       /\ (forall pre post,
             evs = pre ++ EOpen (path_of ServerPy) W :: post ->
             exists text, EWrite (backup_path_of ServerPy) text ∈ pre)
       /\ ((forall text, EWrite (backup_path_of ServerPy) text ∉ evs) ->
           status (error_response (PermissionError Root.WORLD_DATA_PATH)) = 500
           /\ (EOpen (path_of ServerPy) W ∉ evs)
           /\ (forall text, EWrite (path_of ServerPy) text ∉ evs)
           /\ files (snd (Root.save_world scenario_request (readonly_world ServerPy)))
                !! path_of ServerPy
              = files (readonly_world ServerPy) !! path_of ServerPy)
       /\ (forall text,
             EWrite (backup_path_of ServerPy) text ∈ evs ->
             status (error_response (PermissionError Root.WORLD_DATA_PATH)) <> 200 ->
             (exists pb,
                 files (snd (Root.save_world scenario_request (readonly_world ServerPy)))
                   !! backup_path_of ServerPy
                 = Some (File pb text))
             /\ files (snd (Root.save_world scenario_request (readonly_world ServerPy)))
                  !! path_of ServerPy
                = files (readonly_world ServerPy) !! path_of ServerPy).
Proof.
  assert (Hp : is_Some (files (readonly_world ServerPy) !! path_of ServerPy))
    by (eexists; vm_compute; reflexivity).
  assert (Hsave : Root.save_world scenario_request (readonly_world ServerPy)
                  = (Ok (error_response (PermissionError Root.WORLD_DATA_PATH)),
                     snd (Root.save_world scenario_request (readonly_world ServerPy))))
    by (vm_compute; reflexivity).
  split; [exact Hp|]. split; [exact Hsave|].
  exact (write_ordering ServerPy scenario_request (readonly_world ServerPy) _ _ Hp Hsave).
Defined.

(* ===================================================================== *)
(** * A current document that does not decode *)
(* ===================================================================== *)



(* ===================================================================== *)
(** * Where the two files differ *)
(* ===================================================================== *)


(** [server.py] takes a document of any shape: in a state where the files
    can be opened and the current document, if any, decodes, [save_world]
    answers 200 and the document path holds the encoding of the request's
    document. *)
Lemma root_accepts_any_document (req : request) (doc : json) (w : world) (pm : perms) :
  get_json req = Ok doc ->
  write_access (files w) (can_create w) Root.WORLD_DATA_PATH = Ok pm ->
  (is_Some (files w !! Root.WORLD_DATA_PATH) ->
   (exists pb, write_access (files w) (can_create w) (Root.WORLD_DATA_PATH +:+ ".bak") = Ok pb)
   /\ read_access (files w) Root.WORLD_DATA_PATH = Ok tt
   /\ exists cur, json_loads (text_of (files w) Root.WORLD_DATA_PATH) = Some cur) ->
  exists w',
    Root.save_world req w = (Ok ok_response, w')
    /\ files w' !! Root.WORLD_DATA_PATH = Some (File pm (json_dumps doc)).
Proof.
  intros Hreq Hmain Hcur.
  pose proof (path_bak_ne Root.WORLD_DATA_PATH) as Hne.
  destruct (Root_runs_flow req w) as (evs & Hrun).
  unfold save_flow, backup_flow, no_exn in Hrun. rewrite Hreq in Hrun.
  destruct (files w !! Root.WORLD_DATA_PATH) as [n|] eqn:Hp.
  - destruct (Hcur (ex_intro _ n eq_refl)) as ((pb & Hb) & Hr & cur & Hl).
    rewrite Hb, Hr, Hl, (write_access_insert_ne _ _ _ _ _ Hne), Hmain in Hrun.
    destruct Hrun as [Hrun _]. eexists. split; [exact Hrun|]. apply lookup_insert_eq.
  - rewrite Hmain in Hrun.
    destruct Hrun as [Hrun _]. eexists. split; [exact Hrun|]. apply lookup_insert_eq.
Qed.

(** C4. The backend does not take a document of any shape: a request whose
    body is the JSON list [[1, 2]] is answered 500, with the message of the
    [AttributeError] that the first line that prints raises, and no file
    is touched, in every state. *)
Theorem backend_rejects_list (w : world) :
  get_json (Request (Some "[1, 2]")) = Ok (JList [JInt 1; JInt 2])
  /\ exists w',
       Backend.save_world (Request (Some "[1, 2]")) w
       = (Ok (Response (JDict [("error", JStr "'list' object has no attribute 'get'")]) 500), w')
       /\ files w' = files w.
Proof.
  assert (Hreq : get_json (Request (Some "[1, 2]")) = Ok (JList [JInt 1; JInt 2]))
    by (vm_compute; reflexivity).
  split; [exact Hreq|].
  destruct (Backend_runs_flow (Request (Some "[1, 2]")) w) as (evs & Hrun).
  rewrite Hreq in Hrun. destruct Hrun as [Hrun _].
  eexists. split; [exact Hrun | reflexivity].
Qed.

(** C8. The backend does not go on with a request without a body:
    [get_json] gives [None], on which the first line that prints raises;
    the answer is 500 and no file is touched, in every state. *)
Theorem backend_rejects_absent_body (w : world) :
  get_json (Request None) = Ok JNull
  /\ exists w',
       Backend.save_world (Request None) w
       = (Ok (Response (JDict [("error", JStr "'NoneType' object has no attribute 'get'")]) 500),
          w')
       /\ files w' = files w.
Proof.
  split; [reflexivity|].
  destruct (Backend_runs_flow (Request None) w) as (evs & Hrun).
  destruct Hrun as [Hrun _].
  eexists. split; [exact Hrun | reflexivity].
Qed.

(** [server.py] goes on with a request without a body: from the state of
    the scenario it answers 200, writes [null] as the document and the
    former document as the backup. *)
Lemma root_accepts_absent_body :
  exists w',
    Root.save_world (Request None) (scenario_world ServerPy) = (Ok ok_response, w')
    /\ text_of (files w') Root.WORLD_DATA_PATH = "null"
    /\ text_of (files w') (Root.WORLD_DATA_PATH +:+ ".bak") = json_dumps scenario_initial.
Proof. eexists. split; [vm_compute; reflexivity|]. split; vm_compute; reflexivity. Qed.

(** C10. The two files are not equivalent: from the state of the scenario
    (the same document at the path of each), the request with body
    [[1, 2]] is answered 200 by [server.py], which replaces the document,
    and 500 by the backend, which leaves it. *)
Theorem variants_diverge :
  let req := Request (Some "[1, 2]") in
  let root := Root.save_world req (scenario_world ServerPy) in
  let backend := Backend.save_world req (scenario_world BackendServerPy) in
  text_of (files (scenario_world ServerPy)) Root.WORLD_DATA_PATH
  = text_of (files (scenario_world BackendServerPy)) Backend.WORLD_DATA_PATH
  /\ fst root = Ok ok_response
  /\ text_of (files (snd root)) Root.WORLD_DATA_PATH = json_dumps (JList [JInt 1; JInt 2])
  /\ fst backend = Ok (error_response (AttributeError "list" "get"))
  /\ text_of (files (snd backend)) Backend.WORLD_DATA_PATH = json_dumps scenario_initial.
Proof. repeat split; vm_compute; reflexivity. Qed.

(* ===================================================================== *)
(** * More on [get_world] *)
(* ===================================================================== *)

(** X1. [get_world] only reads: in every state it returns a response, of
    status 200 or 500, leaves every file as it was, and does nothing but
    open the document path once, for reading. *)
Theorem get_world_read_only (v : variant) (w : world) :
  exists r,
    get_world_of v w
    = (Ok r, World (files w) (can_create w) (trace w ++ [EOpen (path_of v) R]))
    /\ (status r = 200 \/ status r = 500).
Proof.
  rewrite get_world_of_flow. eexists. split; [reflexivity|].
  unfold get_flow.
  destruct (read_access _ _) as [[]|e]; [|right; reflexivity].
  destruct (json_loads _); [left | right]; reflexivity.
Qed.




(* ===================================================================== *)
(** * More on [save_world] *)
(* ===================================================================== *)

Lemma save_world_returns (v : variant) (req : request) (w : world) :
  exists r w', save_world_of v req w = (Ok r, w').
Proof.
  destruct (variant_runs_flow v req w) as (evs & Hrun).
  destruct (save_flow _ _ _ _ _ _) as [[r fs] fevs].
  destruct Hrun as [Hrun _]. eexists _, _. exact Hrun.
Qed.

Lemma save_world_other_paths (v : variant) (req : request) (w w' : world) (r : response) :
  save_world_of v req w = (Ok r, w') ->
  forall q, q <> path_of v -> q <> backup_path_of v -> files w' !! q = files w !! q.
Proof.
  intros H q Hq Hb. apply save_world_inv in H as (evs & _ & _ & H).
  destruct w as [fs cc tr], w' as [fs' cc' tr']. cbn [files can_create trace] in *.
  unfold save_flow, backup_flow, backup_path_of in *.
  repeat case_match; simplify_eq;
    rewrite ?lookup_insert_ne by (intros E; symmetry in E; contradiction);
    reflexivity.
Qed.

Lemma failed_save_path (v : variant) (req : request) (w w' : world) (r : response) :
  save_world_of v req w = (Ok r, w') ->
  status r <> 200 ->
  files w' !! path_of v = files w !! path_of v.
Proof.
  intros H Hs. apply save_world_inv in H as (evs & Htr & Hcc & H).
  pose proof (path_bak_ne (path_of v)) as Hne.
  destruct w as [fs cc tr], w' as [fs' cc' tr']. cbn [files can_create trace] in *.
  unfold save_flow, backup_flow in H.
  repeat case_match; simplify_eq;
    try (exfalso; apply Hs; reflexivity);
    rewrite ?lookup_insert_ne by assumption;
    first [reflexivity | assumption].
Qed.

(** What one request does to the files: it keeps a readable, valid
    document readable and valid, and leaves every path but the document
    and its backup alone. *)
Lemma serve_files (v : variant) (c : api_call) (w : world) :
  (healthy v (files w) -> healthy v (files (snd (serve v c w))))
  /\ forall q, q <> path_of v -> q <> backup_path_of v ->
               files (snd (serve v c w)) !! q = files w !! q.
Proof.
  destruct c as [|req]; simpl serve.
  - rewrite get_world_of_flow. simpl. split; [intros H; exact H | reflexivity].
  - destruct (save_world_returns v req w) as (r & w' & Hsave).
    rewrite Hsave. simpl. split.
    + intros Hh. destruct (Nat.eq_dec (status r) 200) as [Hs|Hs].
      * destruct (save_success v req w w' r Hsave Hs) as (doc & pm & Hreq & _ & Hfile & Hr & _).
        exists pm, (json_dumps doc), doc. split; [exact Hfile|]. split; [exact Hr|].
        apply json_loads_dumps, (get_json_wf req), Hreq.
      * unfold healthy. rewrite (failed_save_path v req w w' r Hsave Hs). exact Hh.
    + exact (save_world_other_paths v req w w' r Hsave).
Qed.

(** X4. [save_world] never lets an exception out: in every state and for
    every request it returns a response, which is either the success
    message with status 200 or [{'error': str(e)}] with status 500 for
    some exception [e]. *)
Theorem save_world_always_answers (v : variant) (req : request) (w : world) :
  exists r w',
    save_world_of v req w = (Ok r, w')
    /\ (r = ok_response \/ exists e, r = error_response e).
Proof.
  destruct (variant_runs_flow v req w) as (evs & Hrun).
  unfold save_flow, backup_flow in Hrun.
  repeat case_match; simplify_eq; destruct Hrun as [Hrun _];
    eexists _, _; (split; [exact Hrun|]);
    first [left; reflexivity | right; eexists; reflexivity].
Qed.

(** X5. [save_world] touches the document path and its backup and nothing
    else: every other path holds after the call what it held before, and
    every file the call opened or wrote to is one of the two. *)
Theorem save_world_frame (v : variant) (req : request) (w w' : world) (r : response) :
  save_world_of v req w = (Ok r, w') ->
  (forall q, q <> path_of v -> q <> backup_path_of v -> files w' !! q = files w !! q)
  /\ can_create w' = can_create w
  /\ exists evs,
       trace w' = trace w ++ evs
       /\ forall q m text,
            EOpen q m ∈ evs \/ EWrite q text ∈ evs ->
            q = path_of v \/ q = backup_path_of v.
Proof.
  intros Hsave. pose proof Hsave as H. apply save_world_inv in H as (evs & Htr & Hcc & H).
  destruct w as [fs cc tr], w' as [fs' cc' tr']. cbn [files can_create trace] in *.
  unfold save_flow, backup_flow, backup_path_of in H |- *.
  assert (Hin : forall e, is_file_event e = true -> e ∈ evs -> e ∈ file_events evs)
    by (intros e; apply in_file_events).
  split; [|split; [exact Hcc|exists evs; split; [exact Htr|]]].
  - exact (save_world_other_paths v req (World fs cc tr) (World fs' cc' tr') r Hsave).
  - intros q m text [Hx|Hx]; (apply Hin in Hx; [|reflexivity]);
      repeat case_match; simplify_eq;
      match goal with HL : _ = file_events evs |- _ =>
        rewrite <- HL in Hx; cbn [app] in Hx end;
      repeat (apply elem_of_cons in Hx as [Hx|Hx];
              [simplify_eq; (left; reflexivity) || (right; reflexivity)|]);
      apply elem_of_nil in Hx; contradiction.
Qed.

Lemma save_world_frame_witness :
  Root.save_world scenario_request (scenario_world ServerPy)
  = (Ok ok_response, snd (Root.save_world scenario_request (scenario_world ServerPy)))
  /\ files (snd (Root.save_world scenario_request (scenario_world ServerPy))) !! "app.py"
     = files (scenario_world ServerPy) !! "app.py".
Proof.
  assert (Hsave : Root.save_world scenario_request (scenario_world ServerPy)
                  = (Ok ok_response,
                     snd (Root.save_world scenario_request (scenario_world ServerPy))))
    by (vm_compute; reflexivity).
  split; [exact Hsave|].
  apply (proj1 (save_world_frame ServerPy scenario_request (scenario_world ServerPy) _ _ Hsave));
    vm_compute; discriminate.
Defined.

Lemma get_flow_ext (p : string) (fs1 fs2 : gmap string node) :
  fs1 !! p = fs2 !! p -> get_flow p fs1 = get_flow p fs2.
Proof. intros H. unfold get_flow, read_access, text_of. rewrite H. reflexivity. Qed.

(** X6. A [save_world] that did not answer 200 leaves the document as it
    was, whatever made it fail: the document path holds what it held, and
    [get_world] answers after the call what it answered before. *)
Theorem failed_save_keeps_document (v : variant) (req : request) (w w' : world) (r : response) :
  save_world_of v req w = (Ok r, w') ->
  status r <> 200 ->
  files w' !! path_of v = files w !! path_of v
  /\ fst (get_world_of v w') = fst (get_world_of v w).
Proof.
  intros H Hs.
  pose proof (failed_save_path v req w w' r H Hs) as Hp.
  split; [exact Hp|].
  rewrite !get_world_of_flow. simpl. rewrite (get_flow_ext _ _ _ Hp). reflexivity.
Qed.

Lemma failed_save_keeps_document_witness :
  Root.save_world scenario_request (readonly_world ServerPy)
  = (Ok (error_response (PermissionError Root.WORLD_DATA_PATH)),
     snd (Root.save_world scenario_request (readonly_world ServerPy)))
  /\ status (error_response (PermissionError Root.WORLD_DATA_PATH)) <> 200
  /\ fst (Root.get_world (snd (Root.save_world scenario_request (readonly_world ServerPy))))
     = fst (Root.get_world (readonly_world ServerPy)).
Proof.
  assert (Hsave : Root.save_world scenario_request (readonly_world ServerPy)
                  = (Ok (error_response (PermissionError Root.WORLD_DATA_PATH)),
                     snd (Root.save_world scenario_request (readonly_world ServerPy))))
    by (vm_compute; reflexivity).
  assert (Hs : status (error_response (PermissionError Root.WORLD_DATA_PATH)) <> 200)
    by (vm_compute; discriminate).
  split; [exact Hsave|]. split; [exact Hs|].
  exact (proj2 (failed_save_keeps_document ServerPy scenario_request
                  (readonly_world ServerPy) _ _ Hsave Hs)).
Defined.





(* ===================================================================== *)
(** * Sequences of requests *)
(* ===================================================================== *)



(** X10. No sequence of GET and POST requests changes a file other than
    the document and its backup. *)
Theorem serve_all_frame (v : variant) (calls : list api_call) (w : world) (q : string) :
  q <> path_of v -> q <> backup_path_of v ->
  files (serve_all v calls w) !! q = files w !! q.
Proof.
  intros Hq Hb. revert w. induction calls as [|c calls IH]; intros w; [reflexivity|].
  simpl. rewrite IH. exact (proj2 (serve_files v c w) q Hq Hb).
Qed.

Lemma serve_all_frame_witness :
  files (serve_all BackendServerPy [SaveWorld scenario_request; GetWorld]
           (scenario_world BackendServerPy)) !! "app.py"
  = files (scenario_world BackendServerPy) !! "app.py".
Proof.
  apply (serve_all_frame BackendServerPy [SaveWorld scenario_request; GetWorld]
           (scenario_world BackendServerPy) "app.py"); vm_compute; discriminate.
Defined.

(* ===================================================================== *)
(** * The shape the backend asks of a document *)
(* ===================================================================== *)

Lemma raised_rbind {A B : Type} (r : result A) (k : A -> result B) :
  raised (rbind r k) = match r with
                       | Ok a => raised (k a)
                       | Raise e => Some e
                       end.
Proof. destruct r; reflexivity. Qed.

Lemma raised_rmap {A B : Type} (f : A -> result B) (l : list A) :
  raised (rmap f l) = None <-> Forall (fun x => raised (f x) = None) l.
Proof.
  induction l as [|x l IH]; simpl.
  - split; [intros _; apply Forall_nil_2 | reflexivity].
  - rewrite Forall_cons, <- IH. destruct (f x) as [y|e]; simpl.
    + destruct (rmap f l) as [ys|e]; simpl; intuition congruence.
    + intuition congruence.
Qed.

Lemma py_len_has_len (o : json) : raised (py_len o) = None <-> has_len o = true.
Proof. destruct o; simpl; split; congruence. Qed.

Lemma object_ok_spec (obj : json) :
  object_ok obj = true
  <-> raised (py_getitem obj "id") = None /\ raised (Backend.len_of obj "instances") = None.
Proof.
  unfold object_ok, Backend.len_of, py_getitem, py_get, lookup_default.
  destruct obj as [| | | | |d]; simpl; try (split; [discriminate | intros [H _]; discriminate H]).
  destruct (dict_lookup "id" d); simpl.
  - rewrite py_len_has_len. tauto.
  - split; [discriminate | intros [H _]; discriminate H].
Qed.

(** The lines of the backend that print raise nothing exactly on the
    well-shaped documents. *)
Lemma backend_diag_well_shaped (doc : json) :
  backend_diag doc = None <-> well_shaped doc = true.
Proof.
  unfold backend_diag, well_shaped, Backend.len_of, Backend.first_ids,
    Backend.total_instances, py_get, lookup_default.
  destruct doc as [| | | | |d]; try (simpl; split; discriminate).
  cbn [first_raised fold_right raised rbind].
  set (objects := match dict_lookup "objects" d with Some v => v | None => JList [] end).
  set (spawners := match dict_lookup "spawners" d with Some v => v | None => JList [] end).
  set (objects' := match dict_lookup "objects" d with Some v => v | None => JNull end).
  destruct (py_len objects) as [n|e] eqn:Hn; cbn [raised].
  2: { assert (has_len objects = false) as ->
         by (destruct objects; simpl in *; congruence).
       simpl. split; discriminate. }
  assert (has_len objects = true) as Hobj by (apply py_len_has_len; rewrite Hn; reflexivity).
  rewrite Hobj.
  destruct (py_len spawners) as [m|e] eqn:Hm; cbn [raised].
  2: { assert (has_len spawners = false) as ->
         by (destruct spawners; simpl in *; congruence).
       simpl. split; discriminate. }
  assert (has_len spawners = true) as ->
    by (apply py_len_has_len; rewrite Hm; reflexivity).
  cbn [andb].
  destruct (py_truthy objects') eqn:Ht; [|split; reflexivity].
  assert (Heq : objects' = objects).
  { unfold objects', objects in *. destruct (dict_lookup "objects" d); [reflexivity|].
    simpl in Ht. discriminate Ht. }
  rewrite Heq in Ht. clear Heq objects'.
  destruct objects as [| | |s|objs|d']; try discriminate Hobj.
  - destruct s as [|c s]; [discriminate Ht|]. simpl. split; discriminate.
  - cbn [py_iter rbind]. rewrite forallb_forall, <- List.Forall_forall.
    rewrite (Forall_iff _ objs _ object_ok_spec), Forall_and, <- !raised_rmap.
    destruct (rmap (fun obj => py_getitem obj "id") objs) as [ids|e]; cbn [raised rbind];
      [|split; [discriminate | intros [H _]; discriminate H]].
    destruct (rmap (fun obj => Backend.len_of obj "instances") objs) as [lens|e];
      cbn [raised rbind]; [tauto|].
    split; [discriminate | intros [_ H]; discriminate H].
  - destruct d' as [|[k x] d']; [discriminate Ht|]. simpl. split; discriminate.
Qed.

(** X11. The backend answers a document that is not well shaped with 500
    before it touches any file: the files are as they were and the call
    made no file event. *)
Theorem backend_shape_gate (req : request) (doc : json) (w : world) :
  get_json req = Ok doc ->
  well_shaped doc = false ->
  exists e w' evs,
    Backend.save_world req w = (Ok (error_response e), w')
    /\ files w' = files w
    /\ trace w' = trace w ++ evs /\ file_events evs = [].
Proof.
  intros Hreq Hshape.
  destruct (backend_diag doc) as [e|] eqn:Hdiag.
  2: { apply backend_diag_well_shaped in Hdiag. congruence. }
  destruct (Backend_runs_flow req w) as (evs & Hrun).
  unfold save_flow in Hrun. rewrite Hreq, Hdiag in Hrun. destruct Hrun as [Hrun Hev].
  exists e. eexists. exists evs. split; [exact Hrun|]. repeat split. exact Hev.
Qed.

Lemma backend_shape_gate_witness :
  get_json (Request (Some "{}")) = Ok (JDict [])
  /\ well_shaped (JDict []) = true
  /\ get_json (Request (Some "5")) = Ok (JInt 5)
  /\ well_shaped (JInt 5) = false
  /\ exists e w' evs,
       Backend.save_world (Request (Some "5")) (scenario_world BackendServerPy)
       = (Ok (error_response e), w')
       /\ files w' = files (scenario_world BackendServerPy)
       /\ trace w' = trace (scenario_world BackendServerPy) ++ evs /\ file_events evs = [].
Proof.
  split; [vm_compute; reflexivity|]. split; [reflexivity|].
  split; [vm_compute; reflexivity|]. split; [reflexivity|].
  apply (backend_shape_gate (Request (Some "5")) (JInt 5) (scenario_world BackendServerPy));
    [vm_compute; reflexivity | reflexivity].
Defined.

Lemma str_attribute_error (t : string) :
  str (AttributeError t "get") = "'" +:+ t +:+ "' object has no attribute 'get'".
Proof. unfold str, quoted. rewrite !append_assoc. reflexivity. Qed.

(** X12. The backend answers a document that is not a dict with the
    message of the [AttributeError] for its type, and touches no file. *)
Theorem backend_rejects_non_dict (req : request) (doc : json) (w : world) :
  get_json req = Ok doc ->
  (forall d, doc <> JDict d) ->
  exists w',
    Backend.save_world req w
    = (Ok (Response
             (JDict [("error",
                      JStr ("'" +:+ type_name doc +:+ "' object has no attribute 'get'"))])
             500), w')
    /\ files w' = files w.
Proof.
  intros Hreq Hdoc.
  assert (Hdiag : backend_diag doc = Some (AttributeError (type_name doc) "get")).
  { destruct doc as [| | | | |d]; try reflexivity. destruct (Hdoc d eq_refl). }
  destruct (Backend_runs_flow req w) as (evs & Hrun).
  unfold save_flow in Hrun. rewrite Hreq, Hdiag in Hrun. destruct Hrun as [Hrun _].
  unfold error_response in Hrun. rewrite str_attribute_error in Hrun.
  eexists. split; [exact Hrun | reflexivity].
Qed.

Lemma backend_rejects_non_dict_witness :
  get_json (Request (Some "true")) = Ok (JBool true)
  /\ (forall d, JBool true <> JDict d)
  /\ exists w',
       Backend.save_world (Request (Some "true")) (scenario_world BackendServerPy)
       = (Ok (Response (JDict [("error", JStr "'bool' object has no attribute 'get'")]) 500), w')
       /\ files w' = files (scenario_world BackendServerPy).
Proof.
  split; [vm_compute; reflexivity|]. split; [discriminate|].
  apply (backend_rejects_non_dict (Request (Some "true")) (JBool true)
           (scenario_world BackendServerPy)); [vm_compute; reflexivity | discriminate].
Defined.

(** X13. The backend answers a document whose [objects] is a list that
    starts with a dict without an [id] with the message of the
    [KeyError], ['id'], and touches no file. *)
Theorem backend_missing_id (req : request) (d o : list (string * json)) (rest : list json)
    (w : world) :
  get_json req = Ok (JDict d) ->
  dict_lookup "objects" d = Some (JList (JDict o :: rest)) ->
  has_len (lookup_default "spawners" d (JList [])) = true ->
  dict_lookup "id" o = None ->
  exists w',
    Backend.save_world req w = (Ok (Response (JDict [("error", JStr "'id'")]) 500), w')
    /\ files w' = files w.
Proof.
  intros Hreq Hobj Hsp Hid.
  assert (Hdiag : backend_diag (JDict d) = Some (KeyError "id")).
  { unfold backend_diag, Backend.len_of, Backend.first_ids, py_get.
    unfold lookup_default in Hsp. rewrite Hobj.
    destruct (dict_lookup "spawners" d) as [sp|]; [|simpl; rewrite Hid; reflexivity].
    destruct sp; try discriminate Hsp; simpl; rewrite Hid; reflexivity. }
  destruct (Backend_runs_flow req w) as (evs & Hrun).
  unfold save_flow in Hrun. rewrite Hreq, Hdiag in Hrun. destruct Hrun as [Hrun _].
  eexists. split; [exact Hrun | reflexivity].
Qed.

Lemma backend_missing_id_witness :
  exists w',
    Backend.save_world
      (Request (Some (json_dumps (JDict [("objects", JList [JDict [("name", JStr "a")]])]))))
      (scenario_world BackendServerPy)
    = (Ok (Response (JDict [("error", JStr "'id'")]) 500), w')
    /\ files w' = files (scenario_world BackendServerPy).
Proof.
  apply (backend_missing_id _ [("objects", JList [JDict [("name", JStr "a")]])]
           [("name", JStr "a")] []); vm_compute; reflexivity.
Defined.

(** X14. When the document on disk decodes to something that is not a
    dict, the backend cannot save any more: a well-shaped request is
    answered 500 with the [AttributeError] for the type of the current
    document, the document stays, and the backup, already opened for
    writing, is left empty. *)
Theorem backend_non_dict_current (req : request) (doc cur : json) (w : world)
    (pm pb : perms) (text : string) :
  get_json req = Ok doc ->
  well_shaped doc = true ->
  files w !! Backend.WORLD_DATA_PATH = Some (File pm text) ->
  readable pm = true ->
  json_loads text = Some cur ->
  (forall d, cur <> JDict d) ->
  write_access (files w) (can_create w) (Backend.WORLD_DATA_PATH +:+ ".bak") = Ok pb ->
  exists w',
    Backend.save_world req w = (Ok (error_response (AttributeError (type_name cur) "get")), w')
    /\ files w' !! Backend.WORLD_DATA_PATH = files w !! Backend.WORLD_DATA_PATH
    /\ files w' !! (Backend.WORLD_DATA_PATH +:+ ".bak") = Some (File pb "").
Proof.
  intros Hreq Hshape Hp Hr Hl Hcur Hb.
  pose proof (path_bak_ne Backend.WORLD_DATA_PATH) as Hne.
  apply backend_diag_well_shaped in Hshape.
  assert (Hcheck : backend_check cur = Some (AttributeError (type_name cur) "get")).
  { destruct cur as [| | | | |d]; try reflexivity. destruct (Hcur d eq_refl). }
  destruct (Backend_runs_flow req w) as (evs & Hrun).
  unfold save_flow, backup_flow, read_access in Hrun.
  rewrite Hreq, Hshape, Hp, Hb, Hr, (text_of_file _ _ _ _ Hp), Hl, Hcheck in Hrun.
  destruct Hrun as [Hrun _]. eexists. split; [exact Hrun|].
  split; [apply lookup_insert_ne; exact Hne | apply lookup_insert_eq].
Qed.

Lemma backend_non_dict_current_witness :
  exists w',
    Backend.save_world scenario_request
      (World {[ Backend.WORLD_DATA_PATH := File default_perms "[1, 2]" ]} true [])
    = (Ok (error_response (AttributeError "list" "get")), w')
    /\ files w' !! Backend.WORLD_DATA_PATH = Some (File default_perms "[1, 2]")
    /\ files w' !! (Backend.WORLD_DATA_PATH +:+ ".bak") = Some (File default_perms "").
Proof.
  destruct (backend_non_dict_current scenario_request scenario_posted (JList [JInt 1; JInt 2])
              (World {[ Backend.WORLD_DATA_PATH := File default_perms "[1, 2]" ]} true [])
              default_perms default_perms "[1, 2]") as (w' & Hsave & Hmain & Hbak);
    try (vm_compute; reflexivity); [discriminate|].
  exists w'. split; [exact Hsave|]. split; [|exact Hbak].
  rewrite Hmain. vm_compute. reflexivity.
Defined.

Lemma root_accepts_any_document_witness :
  get_json (Request (Some "[1, 2]")) = Ok (JList [JInt 1; JInt 2])
  /\ exists w',
       Root.save_world (Request (Some "[1, 2]")) (scenario_world ServerPy) = (Ok ok_response, w')
       /\ files w' !! Root.WORLD_DATA_PATH
          = Some (File default_perms (json_dumps (JList [JInt 1; JInt 2]))).
Proof.
  split; [vm_compute; reflexivity|].
  apply (root_accepts_any_document (Request (Some "[1, 2]")) (JList [JInt 1; JInt 2])
           (scenario_world ServerPy) default_perms);
    [vm_compute; reflexivity | vm_compute; reflexivity |].
  intros _. split; [exists default_perms; vm_compute; reflexivity|].
  split; [vm_compute; reflexivity|].
  exists scenario_initial. vm_compute. reflexivity.
Defined.

(* ===================================================================== *)
(** * When [save_world] succeeds *)
(* ===================================================================== *)



(* ===================================================================== *)
(** * Where the two files agree *)
(* ===================================================================== *)



(* ===================================================================== *)
(** * What the backend prints *)
(* ===================================================================== *)

Ltac logged :=
  do 3 eexists; split; [reflexivity|];
  split; [cbn [trace]; rewrite <- ?app_assoc; reflexivity|];
  first
    [ left; split; reflexivity
    | right; eexists; split; [reflexivity|]; split; [reflexivity|];
      intros Hin;
      repeat (apply elem_of_cons in Hin as [Hin|Hin]; [discriminate Hin|]);
      apply elem_of_nil in Hin; exact Hin ].

(** X17. The backend's [save_world] ends by printing its outcome: the last
    thing a call that answers 200 does is print the line that names the
    saved path, and the last thing a call that answers 500 does is print
    the very message it returns; a failed call never prints the line of a
    successful save. *)
Theorem backend_logs_outcome (req : request) (w : world) :
  exists r w' evs,
    Backend.save_world req w = (Ok r, w')
    /\ trace w' = trace w ++ evs
    /\ ((r = ok_response
         /\ last evs = Some (EPrint (LogSaved Backend.WORLD_DATA_PATH)))
        \/ (exists e, r = error_response e
            /\ last evs = Some (EPrint (LogError (str e)))
            /\ EPrint (LogSaved Backend.WORLD_DATA_PATH) ∉ evs)).
Proof.
  destruct w as [fs cc tr].
  unfold Backend.save_world.
  pose proof (path_bak_ne Backend.WORLD_DATA_PATH) as Hne.
  set (p := Backend.WORLD_DATA_PATH) in *. clearbody p.
  exec.
  destruct (get_json req) as [doc|e]; [|logged].
  destruct (Backend.len_of doc "objects") as [n1|e]; [|logged].
  destruct (Backend.len_of doc "spawners") as [n2|e]; [|logged].
  destruct (py_get doc "objects" JNull) as [objects|e]; [|logged].
  destruct (py_truthy objects).
  - destruct (Backend.first_ids doc) as [ids|e]; [|logged].
    destruct (Backend.total_instances doc) as [total|e]; [|logged].
    destruct (fs !! p) as [n|] eqn:Hp; norm.
    + destruct (write_access fs cc (p +:+ ".bak")) as [pb|e] eqn:Hb; norm; [|logged].
      destruct (read_access fs p) as [[]|e] eqn:Hr; norm; [|logged].
      destruct (json_loads (text_of fs p)) as [cur|] eqn:Hl; norm; [|logged].
      destruct (Backend.len_of cur "objects") as [n3|e]; norm; [|logged].
      destruct (write_access fs cc p) as [pm|e] eqn:Hw; norm; logged.
    + destruct (write_access fs cc p) as [pm|e] eqn:Hw; norm; logged.
  - destruct (fs !! p) as [n|] eqn:Hp; norm.
    + destruct (write_access fs cc (p +:+ ".bak")) as [pb|e] eqn:Hb; norm; [|logged].
      destruct (read_access fs p) as [[]|e] eqn:Hr; norm; [|logged].
      destruct (json_loads (text_of fs p)) as [cur|] eqn:Hl; norm; [|logged].
      destruct (Backend.len_of cur "objects") as [n3|e]; norm; [|logged].
      destruct (write_access fs cc p) as [pm|e] eqn:Hw; norm; logged.
    + destruct (write_access fs cc p) as [pm|e] eqn:Hw; norm; logged.
Qed.

Ltac silent :=
  first
    [ eexists _, _, []; split; [reflexivity|];
      split; [cbn [trace]; rewrite app_nil_r; reflexivity | reflexivity]
    | do 3 eexists; split; [reflexivity|];
      split; [cbn [trace]; rewrite <- ?app_assoc; reflexivity | reflexivity] ].

(** X18. [server.py] prints nothing: every event of a call of its
    [save_world] is an [open] or a write to a file. *)
Theorem root_prints_nothing (req : request) (w : world) :
  exists r w' evs,
    Root.save_world req w = (Ok r, w')
    /\ trace w' = trace w ++ evs
    /\ file_events evs = evs.
Proof.
  destruct w as [fs cc tr].
  unfold Root.save_world.
  pose proof (path_bak_ne Root.WORLD_DATA_PATH) as Hne.
  set (p := Root.WORLD_DATA_PATH) in *. clearbody p.
  exec.
  destruct (get_json req) as [doc|e]; [|silent].
  destruct (fs !! p) as [n|] eqn:Hp; norm.
  - destruct (write_access fs cc (p +:+ ".bak")) as [pb|e] eqn:Hb; norm; [|silent].
    destruct (read_access fs p) as [[]|e] eqn:Hr; norm; [|silent].
    destruct (json_loads (text_of fs p)) as [cur|] eqn:Hl; norm; [|silent].
    destruct (write_access fs cc p) as [pm|e] eqn:Hw; norm; silent.
  - destruct (write_access fs cc p) as [pm|e] eqn:Hw; norm; silent.
Qed.
